(** * go-retry: policy model and retry executor

    A shallow embedding of package [retry] (the policies, their builders and
    the retry loop of retry.go) and the properties of its specification.

    - [int64] and [time.Duration] values are integers in [Z]; the only
      arithmetic the package performs on them is the increment of the attempt
      counter, whose two's-complement wrap-around is written out.
    - [float64] values are IEEE 754 binary64 numbers, [spec_float] with
      [prec = 53] and [emax = 1024].
    - The retry loop talks to three collaborators (the context, the sleeper
      and the operation).  They are functions over an abstract world [W];
      the loop threads the world through every call and keeps a ghost trace
      of the calls it made. *)

From Stdlib Require Import String.
From Stdlib Require Import ZArith List Bool Lia.
From Stdlib Require Import Floats.SpecFloat.
Import ListNotations.

Open Scope Z_scope.

(** ** Machine integers *)

Module Int64.

Definition min_int64 : Z := - 2 ^ 63.
Definition max_int64 : Z := 2 ^ 63 - 1.

Definition in_range (z : Z) : Prop := min_int64 <= z <= max_int64.

Definition in_rangeb (z : Z) : bool := (min_int64 <=? z) && (z <=? max_int64).

(** Two's-complement reduction of an integer to 64 bits. *)
Definition wrap (z : Z) : Z := (z + 2 ^ 63) mod 2 ^ 64 - 2 ^ 63.

(** [i++] on an [int64]. *)
Definition incr (i : Z) : Z := wrap (i + 1).

End Int64.

(** ** time.Duration: an int64 count of nanoseconds *)

Definition Duration : Type := Z.

Definition Nanosecond : Duration := 1.
Definition Microsecond : Duration := 1000 * Nanosecond.
Definition Millisecond : Duration := 1000 * Microsecond.
Definition Second : Duration := 1000 * Millisecond.

(** [Duration.Nanoseconds] *)
Definition Nanoseconds (d : Duration) : Z := d.

(** ** float64 *)

Module Float64.

Definition float64 : Type := spec_float.

Definition prec : Z := 53.
Definition emax : Z := 1024.

(** The conversion [float64(n)] of an [int64]: round to nearest, ties to
    even. *)
Definition of_int64 (n : Z) : float64 := binary_normalize prec emax n 0 false.

Definition mul (x y : float64) : float64 := SFmul prec emax x y.

(** [x <= y] and [x < y]; both are false as soon as one side is NaN. *)
Definition leb (x y : float64) : bool := SFleb x y.
Definition ltb (x y : float64) : bool := SFltb x y.

Definition is_nan (x : float64) : bool :=
  match x with S754_nan => true | _ => false end.

(** The integer part of a float, the fraction discarded (truncation towards
    zero); nothing for NaN and the infinities. *)
Definition truncate (x : float64) : option Z :=
  match x with
  | S754_zero _ => Some 0
  | S754_finite s m e =>
      let mag := if 0 <=? e then Z.shiftl (Zpos m) e
                 else Z.shiftr (Zpos m) (- e) in
      Some (if s then - mag else mag)
  | S754_infinity _ | S754_nan => None
  end.

(** The conversion [int64(x)].  When the truncated value is not an [int64]
    the Go specification leaves the result to the implementation;
    [unrepresentable] is that choice (the constant [-2^63] on amd64,
    saturation on arm64). *)
Definition to_int64 (unrepresentable : float64 -> Z) (x : float64) : Z :=
  match truncate x with
  | Some z => if Int64.in_rangeb z then z else unrepresentable x
  | None => unrepresentable x
  end.

Definition amd64 : float64 -> Z := fun _ => Int64.min_int64.

(** Literals used by the package and its tests. *)
Definition zero : float64 := S754_zero false.
Definition one : float64 := Eval vm_compute in of_int64 1.
Definition two : float64 := Eval vm_compute in of_int64 2.
Definition three_halves : float64 :=
  Eval vm_compute in binary_normalize prec emax 3 (-1) false.
Definition nan : float64 := S754_nan.

End Float64.

Import Float64.

(** ** Policies *)

Definition defaultInitialInterval : Duration := Second.
Definition defaultMaxInterval : Duration := 30 * Second.
Definition defaultMaxAttempts : Z := 3.
Definition defaultBackOffCoefficient : float64 := Float64.two.
Definition fixedDelayBackOffCoefficient : float64 := Float64.one.
Definition unlimitedMaxInterval : Duration := -1.
Definition undefinedMaxAttempts : Z := -1.

(** The normalized view of a retry policy that the executor reads. *)
Class policy (P : Type) : Type := {
  getInitialInterval : P -> Duration;
  getMaxInterval : P -> Duration;
  getMaxAttempts : P -> Z;
  getBackOffCoefficient : P -> float64
}.

Module BackOffPolicy.

Record t : Type := mk {
  initialInterval : Duration;
  maxInterval : Duration;
  maxAttempts : Z;
  backOffCoefficient : float64
}.

Definition InitialInterval (p : t) : Duration := initialInterval p.
Definition MaxInterval (p : t) : Duration := maxInterval p.
Definition MaxAttempts (p : t) : Z := maxAttempts p.
Definition BackOffCoefficient (p : t) : float64 := backOffCoefficient p.

Definition HasUnlimitedMaxInterval (p : t) : bool :=
  maxInterval p =? unlimitedMaxInterval.

Definition IsAttemptingIndefinitely (p : t) : bool :=
  maxAttempts p =? undefinedMaxAttempts.

(** The zero value [BackOffPolicy{}]. *)
Definition zero_value : t := mk 0 0 0 (S754_zero false).

End BackOffPolicy.

#[export] Instance BackOffPolicy_policy : policy BackOffPolicy.t := {
  getInitialInterval := BackOffPolicy.initialInterval;
  getMaxInterval := BackOffPolicy.maxInterval;
  getMaxAttempts := BackOffPolicy.maxAttempts;
  getBackOffCoefficient := BackOffPolicy.backOffCoefficient
}.

Module FixedDelayPolicy.

Record t : Type := mk {
  interval : Duration;
  maxAttempts : Z
}.

Definition Interval (p : t) : Duration := interval p.
Definition MaxAttempts (p : t) : Z := maxAttempts p.

Definition IsAttemptingIndefinitely (p : t) : bool :=
  maxAttempts p =? undefinedMaxAttempts.

End FixedDelayPolicy.

#[export] Instance FixedDelayPolicy_policy : policy FixedDelayPolicy.t := {
  getInitialInterval := FixedDelayPolicy.interval;
  getMaxInterval := FixedDelayPolicy.interval;
  getMaxAttempts := FixedDelayPolicy.maxAttempts;
  getBackOffCoefficient := fun _ => fixedDelayBackOffCoefficient
}.

(** ** Policy builders *)

Module BackOffPolicyBuilder.

Record t : Type := mk {
  initialInterval : Duration;
  maxInterval : Duration;
  maxAttempts : Z;
  backOffCoefficient : float64
}.

(** The zero value [BackOffPolicyBuilder{}] that [BackOff()] allocates. *)
Definition zero_value : t := mk 0 0 0 (S754_zero false).

Definition WithInitialInterval (b : t) (initialInterval' : Duration) : t :=
  mk initialInterval' (maxInterval b) (maxAttempts b) (backOffCoefficient b).

Definition WithMaxInterval (b : t) (maxInterval' : Duration) : t :=
  mk (initialInterval b) maxInterval' (maxAttempts b) (backOffCoefficient b).

Definition WithMaxIntervalUnlimited (b : t) : t :=
  mk (initialInterval b) unlimitedMaxInterval (maxAttempts b)
     (backOffCoefficient b).

Definition WithMaxAttempts (b : t) (maxAttempts' : Z) : t :=
  mk (initialInterval b) (maxInterval b) maxAttempts' (backOffCoefficient b).

Definition WithMaxAttemptsIndefinite (b : t) : t :=
  mk (initialInterval b) (maxInterval b) undefinedMaxAttempts
     (backOffCoefficient b).

Definition WithBackOffCoefficient (b : t) (backOffCoefficient' : float64) : t :=
  mk (initialInterval b) (maxInterval b) (maxAttempts b) backOffCoefficient'.

Definition resolveInitialInterval (b : t) : Duration :=
  if initialInterval b <=? 0 then defaultInitialInterval
  else initialInterval b.

Definition resolveMaxInterval (b : t) : Duration :=
  if maxInterval b <? 0 then unlimitedMaxInterval
  else if maxInterval b =? 0 then defaultMaxInterval
  else maxInterval b.

Definition resolveMaxAttempts (b : t) : Z :=
  if maxAttempts b <? 0 then undefinedMaxAttempts
  else if maxAttempts b =? 0 then defaultMaxAttempts
  else maxAttempts b.

Definition resolveBackOffCoefficient (b : t) : float64 :=
  if Float64.leb (backOffCoefficient b) Float64.zero
  then defaultBackOffCoefficient
  else backOffCoefficient b.

Definition Build (b : t) : BackOffPolicy.t :=
  BackOffPolicy.mk (resolveInitialInterval b) (resolveMaxInterval b)
                   (resolveMaxAttempts b) (resolveBackOffCoefficient b).

End BackOffPolicyBuilder.

Module FixedDelayPolicyBuilder.

Record t : Type := mk {
  interval : Duration;
  maxAttempts : Z
}.

(** The zero value [FixedDelayPolicyBuilder{}] that [FixedDelay()]
    allocates. *)
Definition zero_value : t := mk 0 0.

Definition WithInterval (b : t) (interval' : Duration) : t :=
  mk interval' (maxAttempts b).

Definition WithMaxAttempts (b : t) (maxAttempts' : Z) : t :=
  mk (interval b) maxAttempts'.

Definition WithMaxAttemptsIndefinite (b : t) : t :=
  mk (interval b) undefinedMaxAttempts.

Definition resolveInterval (b : t) : Duration :=
  if interval b <=? 0 then defaultInitialInterval else interval b.

Definition resolveMaxAttempts (b : t) : Z :=
  if maxAttempts b <? 0 then undefinedMaxAttempts
  else if maxAttempts b =? 0 then defaultMaxAttempts
  else maxAttempts b.

Definition Build (b : t) : FixedDelayPolicy.t :=
  FixedDelayPolicy.mk (resolveInterval b) (resolveMaxAttempts b).

End FixedDelayPolicyBuilder.

(** ** retry.go: interval progression *)

Section Intervals.

(** What [int64(x)] yields on this platform when [x] has no [int64]
    value. *)
Variable unrepresentable : float64 -> Z.

Definition nextInterval (current : Duration) (backOffCoefficient : float64)
  : Duration :=
  Float64.to_int64 unrepresentable
    (Float64.mul (Float64.of_int64 (Nanoseconds current)) backOffCoefficient).

Definition calcNextInterval (current maxInterval : Duration)
           (backOffCoefficient : float64) : Duration :=
  if unlimitedMaxInterval =? maxInterval
  then nextInterval current backOffCoefficient
  else if current =? maxInterval then current
  else
    let next := nextInterval current backOffCoefficient in
    if next >? maxInterval then maxInterval else next.

End Intervals.

(** ** retry.go: errors *)

(** Go's [error] values as the retry loop sees them: either an error of the
    caller's own ([E] is the type of those), or this package's
    [DeadlineExceededError[T]], which carries a result and a possibly nil
    inner error.  A nil [error] is [None]. *)
#[warnings="-register-all"]
Inductive error (E T : Type) : Type :=
| ForeignError (e : E)
| DeadlineExceededError (Result : T) (Err : option (error E T)).

Arguments ForeignError {E T} e.
Arguments DeadlineExceededError {E T} Result Err.

Definition is_DeadlineExceeded {E T} (e : option (error E T)) : bool :=
  match e with
  | Some (DeadlineExceededError _ _) => true
  | _ => false
  end.

(** [DeadlineExceededError.Error]: ["Deadline exceeded %v"] of the inner
    error, which prints as its own message, or as [<nil>].
    [message] gives the messages of the caller's errors. *)
Fixpoint Error {E T : Type} (message : E -> string) (e : error E T) : string :=
  match e with
  | ForeignError x => message x
  | DeadlineExceededError _ None => "Deadline exceeded <nil>"%string
  | DeadlineExceededError _ (Some e') =>
      String.append "Deadline exceeded "%string (Error message e')
  end.

(** ** retry.go: the retry loop *)

(** The calls a run of [Supply] makes to its collaborators, in order. *)
Inductive event (E T : Type) : Type :=
| PollDone (fired : bool)
| CallSupply (res : T) (err : option (error E T))
| CallSleep (duration : Duration).

Arguments PollDone {E T} fired.
Arguments CallSupply {E T} res err.
Arguments CallSleep {E T} duration.

(** A returned value together with the world and the trace at return. *)
Record outcome (W E T A : Type) : Type := mkOutcome {
  ret : A;
  world_of : W;
  trace_of : list (event E T)
}.

Arguments mkOutcome {W E T A} ret world_of trace_of.
Arguments ret {W E T A} o.
Arguments world_of {W E T A} o.
Arguments trace_of {W E T A} o.

Section Executor.

Context {W E T P : Type} `{policy P}.

Variable unrepresentable : float64 -> Z.

(** [ctx]: whether a receive from [ctx.Done()] can proceed in a world. *)
Variable ctx : W -> bool.
(** [slp]: [Sleep(duration)] acts on the world. *)
Variable slp : Duration -> W -> W.
(** [supply]: the operation returns a value and an error and acts on the
    world. *)
Variable supply : W -> (T * option (error E T)) * W.
(** The zero value of [T], which [var res T] holds. *)
Variable zeroT : T.
Variable p : P.

(** The variables of [Supply] at the head of its loop. *)
Record loop_state : Type := mkLoop {
  res : T;
  err : option (error E T);
  nextInterval_ : Duration;
  i : Z;
  world : W;
  trace : list (event E T)
}.

Inductive status : Type :=
| Running (st : loop_state)
| Finished (o : outcome W E T (T * option (error E T))).

(** [i == int64(0) || i < p.getMaxAttempts()] *)
Definition loop_cond (st : loop_state) : bool :=
  (i st =? 0) || (i st <? getMaxAttempts p).

(** One pass through the loop body. *)
Definition loop_body (st : loop_state) : status :=
  if ctx (world st) then
    Finished (mkOutcome (res st, Some (DeadlineExceededError (res st) (err st)))
                        (world st)
                        (trace st ++ [PollDone true]))
  else
    let '((res', err'), w1) := supply (world st) in
    match err' with
    | None =>
        Finished (mkOutcome (res', None) w1
                            (trace st ++ [PollDone false; CallSupply res' err']))
    | Some _ =>
        let currInterval := nextInterval_ st in
        let next := calcNextInterval unrepresentable (nextInterval_ st)
                      (getMaxInterval p) (getBackOffCoefficient p) in
        let w2 := slp currInterval w1 in
        let i' := if getMaxAttempts p >? 0 then Int64.incr (i st) else i st in
        Running (mkLoop res' err' next i' w2
                        (trace st ++ [PollDone false; CallSupply res' err';
                                      CallSleep currInterval]))
    end.

(** From the head of the loop: leave it with [return res, err] when the
    condition fails, run the body otherwise. *)
Definition loop_step (st : loop_state) : status :=
  if loop_cond st then loop_body st
  else Finished (mkOutcome (res st, err st) (world st) (trace st)).

Fixpoint loop_iter (fuel : nat) (s : status) : status :=
  match fuel with
  | O => s
  | S fuel' =>
      match s with
      | Running st => loop_iter fuel' (loop_step st)
      | Finished _ => s
      end
  end.

Definition initial (w : W) : loop_state :=
  mkLoop zeroT None (getInitialInterval p) 0 w [].

(** The status of [Supply] after at most [fuel] evaluations of the loop
    condition. *)
Definition Supply_status (fuel : nat) (w : W) : status :=
  loop_iter fuel (Running (initial w)).

(** [Supply(ctx, slp, supply, p)]: the returned pair, or nothing when the
    loop is still running after [fuel] evaluations of its condition. *)
Definition Supply (fuel : nat) (w : W)
  : option (outcome W E T (T * option (error E T))) :=
  match Supply_status fuel w with
  | Finished o => Some o
  | Running _ => None
  end.

Definition status_trace (s : status) : list (event E T) :=
  match s with
  | Running st => trace st
  | Finished o => trace_of o
  end.

End Executor.

Arguments mkLoop {W E T} res err nextInterval_ i world trace.
Arguments Running {W E T} st.
Arguments Finished {W E T} o.

(** [Run] and its two adapters. *)
Section Run.

Context {W E P : Type} `{policy P}.

(** The interface type [any] and its nil value. *)
Variable any : Type.
Variable nil_any : any.

Definition runFuncToSupplyFunc (run : W -> option (error E any) * W)
  : W -> (any * option (error E any)) * W :=
  fun w => let '(e, w') := run w in ((nil_any, e), w').

Definition returnErrOnly {A : Type} (r : A * option (error E any))
  : option (error E any) :=
  snd r.

Definition Run (unrepresentable : float64 -> Z)
           (ctx : W -> bool) (slp : Duration -> W -> W)
           (run : W -> option (error E any) * W) (p : P)
           (fuel : nat) (w : W)
  : option (outcome W E any (option (error E any))) :=
  match Supply unrepresentable ctx slp (runFuncToSupplyFunc run) nil_any p fuel w with
  | Some o => Some (mkOutcome (returnErrOnly (ret o)) (world_of o) (trace_of o))
  | None => None
  end.

End Run.

(** Counting the calls of a trace. *)
Definition is_CallSupply {E T} (ev : event E T) : bool :=
  match ev with CallSupply _ _ => true | _ => false end.

Definition is_CallSleep {E T} (ev : event E T) : bool :=
  match ev with CallSleep _ => true | _ => false end.

Definition invocations {E T} (tr : list (event E T)) : nat :=
  length (filter is_CallSupply tr).

Definition sleep_count {E T} (tr : list (event E T)) : nat :=
  length (filter is_CallSleep tr).

(** The durations handed to the sleeper, in order. *)
Fixpoint sleeps {E T} (tr : list (event E T)) : list Duration :=
  match tr with
  | [] => []
  | CallSleep d :: tr' => d :: sleeps tr'
  | _ :: tr' => sleeps tr'
  end.

(** What the operation returned last, [(zeroT, nil)] before its first call. *)
Fixpoint last_observed {E T} (tr : list (event E T))
         (acc : T * option (error E T)) : T * option (error E T) :=
  match tr with
  | [] => acc
  | CallSupply r e :: tr' => last_observed tr' (r, e)
  | _ :: tr' => last_observed tr' acc
  end.

(** [failed_rounds k tr]: the trace [tr] consists of [k] failed rounds, each
    of them a poll that found the signal quiet, a call of the operation that
    returned an error, and a sleep. *)
Inductive failed_rounds {E T : Type} : nat -> list (event E T) -> Prop :=
| failed_rounds_O : failed_rounds O []
| failed_rounds_S (k : nat) (tr : list (event E T)) (v : T) (e : error E T)
                  (d : Duration) :
    failed_rounds k tr ->
    failed_rounds (S k)
      (tr ++ [PollDone false; CallSupply v (Some e); CallSleep d]).

(** How deeply an error is wrapped in deadline errors. *)
Fixpoint wrap_depth {E T : Type} (e : error E T) : nat :=
  match e with
  | ForeignError _ => O
  | DeadlineExceededError _ None => 1%nat
  | DeadlineExceededError _ (Some e') => S (wrap_depth e')
  end.

(** ** Invariants of the loop *)

(** At the head of the loop the trace is a number of failed rounds, and
    [res], [err] hold what the operation returned last. *)
Definition head_inv {W E T : Type} (zeroT : T) (st : @loop_state W E T) : Prop :=
  (exists m, failed_rounds m (trace st))
  /\ (res st, err st) = last_observed (trace st) (zeroT, None).

(** With a limited [maxInterval], no interval held or slept exceeds it as
    soon as the initial interval does not. *)
Definition capped_inv {W E T P : Type} `{policy P} (p : P)
           (st : @loop_state W E T) : Prop :=
  nextInterval_ st <= getMaxInterval p
  /\ Forall (fun d => d <= getMaxInterval p) (sleeps (trace st)).

(** ** The ranges of a policy's fields

    What the executor reads from a policy is in range when the intervals and
    the coefficient are positive and the attempt bound is positive, the
    unlimited sentinel being allowed for [maxInterval] and the indefinite
    sentinel for [maxAttempts]. *)
Definition fields_in_range {P : Type} `{policy P} (p : P) : Prop :=
  0 < getInitialInterval p
  /\ (0 < getMaxInterval p \/ getMaxInterval p = unlimitedMaxInterval)
  /\ (0 < getMaxAttempts p \/ getMaxAttempts p = undefinedMaxAttempts)
  /\ Float64.ltb Float64.zero (getBackOffCoefficient p) = true.

(** ** A simulated world for concrete runs

    The world of the package's tests: a fake clock that the sleeper advances,
    and an operation that counts its calls, notes the time of each and fails
    until its [succeed_at]-th call. *)
Module TestWorld.

Inductive test_error : Type := AnError.

Record t : Type := mk {
  clock : Z;
  calls : nat;
  tryTimes : list Z
}.

Definition start : t := mk 0 O [].

Definition background : t -> bool := fun _ => false.

Definition cancelled : t -> bool := fun _ => true.

(** A context whose deadline is at [deadline] on the fake clock. *)
Definition deadline_at (deadline : Z) : t -> bool :=
  fun w => deadline <=? clock w.

Definition fake_sleep (d : Duration) (w : t) : t :=
  mk (clock w + d) (calls w) (tryTimes w).

Definition failing_until (succeed_at : nat) (w : t)
  : (bool * option (error test_error bool)) * t :=
  let w' := mk (clock w) (S (calls w)) (tryTimes w ++ [clock w]) in
  if (S (calls w) <? succeed_at)%nat
  then ((false, Some (ForeignError AnError)), w')
  else ((true, None), w').

Definition always_failing (w : t)
  : (bool * option (error test_error bool)) * t :=
  ((false, Some (ForeignError AnError)),
   mk (clock w) (S (calls w)) (tryTimes w ++ [clock w])).

End TestWorld.


(** The policy of the exponential-progression scenario. *)
Definition progression_policy : BackOffPolicy.t :=
  BackOffPolicyBuilder.Build
    (BackOffPolicyBuilder.WithMaxAttempts
       (BackOffPolicyBuilder.WithBackOffCoefficient
          (BackOffPolicyBuilder.WithInitialInterval
             BackOffPolicyBuilder.zero_value (100 * Millisecond))
          Float64.two)
       5).

(** The specification's wording of [Run]: the operation lifted to return a
    placeholder value alongside its error ... *)
Definition lift_with_placeholder {W E A : Type} (placeholder : A)
           (run : W -> option (error E A) * W)
  : W -> (A * option (error E A)) * W :=
  fun w => ((placeholder, fst (run w)), snd (run w)).

(** ... and the error component of [Supply] applied to the same context,
    sleeper and policy and to the lifted operation. *)
Definition Run_spec {W E P A : Type} `{policy P} (placeholder : A)
           (unrepresentable : float64 -> Z)
           (ctx : W -> bool) (slp : Duration -> W -> W)
           (run : W -> option (error E A) * W) (p : P)
           (fuel : nat) (w : W)
  : option (outcome W E A (option (error E A))) :=
  option_map
    (fun o => mkOutcome (snd (ret o)) (world_of o) (trace_of o))
    (Supply unrepresentable ctx slp (lift_with_placeholder placeholder run)
            placeholder p fuel w).

(** ** Builders behind references

    [Policy().BackOff()] and [Policy().FixedDelay()] return pointers to fresh
    builders, and every builder method has a value receiver: a call through a
    reference works on a copy of the builder it points to.  The store below
    holds the builders a caller has references to; a reference is the index
    of a cell. *)
Module BuilderStore.

Inductive cell : Type :=
| BackOffCell (b : BackOffPolicyBuilder.t)
| FixedDelayCell (b : FixedDelayPolicyBuilder.t).

Definition store : Type := list cell.
Definition ref : Type := nat.

(** [Builder.BackOff]: [return &BackOffPolicyBuilder{}] *)
Definition BackOff (s : store) : ref * store :=
  (length s, s ++ [BackOffCell BackOffPolicyBuilder.zero_value]).

(** [Builder.FixedDelay]: [return &FixedDelayPolicyBuilder{}] *)
Definition FixedDelay (s : store) : ref * store :=
  (length s, s ++ [FixedDelayCell FixedDelayPolicyBuilder.zero_value]).

Inductive method : Type :=
| WithInitialInterval (initialInterval : Duration)
| WithMaxInterval (maxInterval : Duration)
| WithMaxIntervalUnlimited
| WithMaxAttempts (maxAttempts : Z)
| WithMaxAttemptsIndefinite
| WithBackOffCoefficient (backOffCoefficient : float64)
| WithInterval (interval : Duration)
| Build.

Inductive value : Type :=
| BackOffBuilderV (b : BackOffPolicyBuilder.t)
| FixedDelayBuilderV (b : FixedDelayPolicyBuilder.t)
| BackOffPolicyV (p : BackOffPolicy.t)
| FixedDelayPolicyV (p : FixedDelayPolicy.t).

(** The method of that name on the builder, applied to a copy of it; nothing
    when the builder's type has no such method. *)
Definition invoke (m : method) (c : cell) : option value :=
  match c, m with
  | BackOffCell b, WithInitialInterval d =>
      Some (BackOffBuilderV (BackOffPolicyBuilder.WithInitialInterval b d))
  | BackOffCell b, WithMaxInterval d =>
      Some (BackOffBuilderV (BackOffPolicyBuilder.WithMaxInterval b d))
  | BackOffCell b, WithMaxIntervalUnlimited =>
      Some (BackOffBuilderV (BackOffPolicyBuilder.WithMaxIntervalUnlimited b))
  | BackOffCell b, WithMaxAttempts n =>
      Some (BackOffBuilderV (BackOffPolicyBuilder.WithMaxAttempts b n))
  | BackOffCell b, WithMaxAttemptsIndefinite =>
      Some (BackOffBuilderV (BackOffPolicyBuilder.WithMaxAttemptsIndefinite b))
  | BackOffCell b, WithBackOffCoefficient c' =>
      Some (BackOffBuilderV (BackOffPolicyBuilder.WithBackOffCoefficient b c'))
  | BackOffCell b, Build =>
      Some (BackOffPolicyV (BackOffPolicyBuilder.Build b))
  | FixedDelayCell b, WithInterval d =>
      Some (FixedDelayBuilderV (FixedDelayPolicyBuilder.WithInterval b d))
  | FixedDelayCell b, WithMaxAttempts n =>
      Some (FixedDelayBuilderV (FixedDelayPolicyBuilder.WithMaxAttempts b n))
  | FixedDelayCell b, WithMaxAttemptsIndefinite =>
      Some (FixedDelayBuilderV
              (FixedDelayPolicyBuilder.WithMaxAttemptsIndefinite b))
  | FixedDelayCell b, Build =>
      Some (FixedDelayPolicyV (FixedDelayPolicyBuilder.Build b))
  | _, _ => None
  end.

(** The call [r.m(...)]: the returned value and the store after the call.
    No method of the package assigns through its receiver. *)
Definition call (r : ref) (m : method) (s : store) : option value * store :=
  (match nth_error s r with
   | Some c => invoke m c
   | None => None
   end, s).




End BuilderStore.

(** ** The schedule of intervals

    The interval [Supply] holds after [k] failed passes: [calcNextInterval]
    applied [k] times to the policy's initial interval. *)
Definition interval_at {P : Type} `{policy P} (unrepresentable : float64 -> Z)
           (p : P) (k : nat) : Duration :=
  Nat.iter k
    (fun d => calcNextInterval unrepresentable d (getMaxInterval p)
                               (getBackOffCoefficient p))
    (getInitialInterval p).

(** The first [m] intervals. *)
Definition schedule {P : Type} `{policy P} (unrepresentable : float64 -> Z)
           (p : P) (m : nat) : list Duration :=
  map (interval_at unrepresentable p) (seq 0 m).

(** ** Rebuilding a policy from its accessors

    [Policy().BackOff().WithInitialInterval(p.InitialInterval())
       .WithMaxInterval(p.MaxInterval()).WithMaxAttempts(p.MaxAttempts())
       .WithBackOffCoefficient(p.BackOffCoefficient()).Build()] *)
Definition BackOff_rebuild (p : BackOffPolicy.t) : BackOffPolicy.t :=
  BackOffPolicyBuilder.Build
    (BackOffPolicyBuilder.WithBackOffCoefficient
       (BackOffPolicyBuilder.WithMaxAttempts
          (BackOffPolicyBuilder.WithMaxInterval
             (BackOffPolicyBuilder.WithInitialInterval
                BackOffPolicyBuilder.zero_value
                (BackOffPolicy.InitialInterval p))
             (BackOffPolicy.MaxInterval p))
          (BackOffPolicy.MaxAttempts p))
       (BackOffPolicy.BackOffCoefficient p)).

(** [Policy().FixedDelay().WithInterval(p.Interval())
       .WithMaxAttempts(p.MaxAttempts()).Build()] *)
Definition FixedDelay_rebuild (p : FixedDelayPolicy.t) : FixedDelayPolicy.t :=
  FixedDelayPolicyBuilder.Build
    (FixedDelayPolicyBuilder.WithMaxAttempts
       (FixedDelayPolicyBuilder.WithInterval
          FixedDelayPolicyBuilder.zero_value (FixedDelayPolicy.Interval p))
       (FixedDelayPolicy.MaxAttempts p)).

(** ** Chains of builder calls *)

(** The builder a [With*] call returns, as a cell of its own; nothing for
    [Build] and for a method the builder's type does not have. *)
Definition builder_after (m : BuilderStore.method) (c : BuilderStore.cell)
  : option BuilderStore.cell :=
  match BuilderStore.invoke m c with
  | Some (BuilderStore.BackOffBuilderV b) => Some (BuilderStore.BackOffCell b)
  | Some (BuilderStore.FixedDelayBuilderV b) =>
      Some (BuilderStore.FixedDelayCell b)
  | _ => None
  end.

(** Whether two methods assign the same field of a builder. *)
Definition same_field (m1 m2 : BuilderStore.method) : bool :=
  match m1, m2 with
  | BuilderStore.WithInitialInterval _, BuilderStore.WithInitialInterval _ =>
      true
  | (BuilderStore.WithMaxInterval _ | BuilderStore.WithMaxIntervalUnlimited),
    (BuilderStore.WithMaxInterval _ | BuilderStore.WithMaxIntervalUnlimited) =>
      true
  | (BuilderStore.WithMaxAttempts _ | BuilderStore.WithMaxAttemptsIndefinite),
    (BuilderStore.WithMaxAttempts _ | BuilderStore.WithMaxAttemptsIndefinite) =>
      true
  | BuilderStore.WithBackOffCoefficient _,
    BuilderStore.WithBackOffCoefficient _ => true
  | BuilderStore.WithInterval _, BuilderStore.WithInterval _ => true
  | _, _ => false
  end.

(** ** More of the simulated world *)

(** A context that is done once the operation has been called [n] times. *)
Definition done_after_calls (n : nat) : TestWorld.t -> bool :=
  fun w => (n <=? TestWorld.calls w)%nat.

(** An error-only operation for [Run]: it counts its calls and fails until
    its [succeed_at]-th call. *)
Definition run_failing_until (succeed_at : nat) (w : TestWorld.t)
  : option (error TestWorld.test_error unit) * TestWorld.t :=
  let w' := TestWorld.mk (TestWorld.clock w) (S (TestWorld.calls w))
                         (TestWorld.tryTimes w ++ [TestWorld.clock w]) in
  if (S (TestWorld.calls w) <? succeed_at)%nat
  then (Some (ForeignError TestWorld.AnError), w')
  else (None, w').

(** ** The ways [Supply] returns *)

(** The operation's last call returned no error: its value is returned. *)
Definition succeeded {W E T : Type}
           (o : outcome W E T (T * option (error E T))) : Prop :=
  exists m tr v,
    failed_rounds m tr
    /\ trace_of o = tr ++ [PollDone false; CallSupply v None]
    /\ ret o = (v, None).

(** A poll found the context done: a deadline error that carries what the
    operation returned last. *)
Definition cancelled {W E T : Type} (ctx : W -> bool) (zeroT : T)
           (o : outcome W E T (T * option (error E T))) : Prop :=
  exists m tr,
    failed_rounds m tr
    /\ trace_of o = tr ++ [PollDone true]
    /\ ctx (world_of o) = true
    /\ ret o = (fst (last_observed tr (zeroT, None)),
                Some (DeadlineExceededError
                        (fst (last_observed tr (zeroT, None)))
                        (snd (last_observed tr (zeroT, None))))).

(** The loop condition failed: at least one round was played, the bound is
    positive, and what the operation returned last is returned as it is. *)
Definition exhausted {W E T P : Type} `{policy P} (p : P) (zeroT : T)
           (o : outcome W E T (T * option (error E T))) : Prop :=
  exists m e,
    failed_rounds (S m) (trace_of o)
    /\ ret o = last_observed (trace_of o) (zeroT, None)
    /\ snd (ret o) = Some e
    /\ 0 < getMaxAttempts p.

(** * Properties *)

Example nextInterval_100ms_x2 :
  nextInterval Float64.amd64 (100 * Millisecond) Float64.two = 200 * Millisecond.
Proof. vm_compute. reflexivity. Qed.


(** ** The loop, step by step *)

Section ExecutorFacts.

Context {W E T P : Type} `{policy P}.

Variable unrepresentable : float64 -> Z.
Variable ctx : W -> bool.
Variable slp : Duration -> W -> W.
Variable supply : W -> (T * option (error E T)) * W.
Variable zeroT : T.
Variable p : P.

Abbreviation step := (loop_step unrepresentable ctx slp supply p).
Abbreviation iter := (loop_iter unrepresentable ctx slp supply p).
Abbreviation cond := (loop_cond (W:=W) (E:=E) (T:=T) p).

Lemma loop_step_exit (st : loop_state) :
  cond st = false ->
  step st = Finished (mkOutcome (res st, err st) (world st) (trace st)).
Proof. intros Hc. unfold loop_step. now rewrite Hc. Qed.

Lemma loop_step_cancel (st : loop_state) :
  cond st = true -> ctx (world st) = true ->
  step st =
  Finished (mkOutcome (res st, Some (DeadlineExceededError (res st) (err st)))
                      (world st) (trace st ++ [PollDone true])).
Proof.
  intros Hc Hd. unfold loop_step, loop_body. now rewrite Hc, Hd.
Qed.

Lemma loop_step_success (st : loop_state) (v : T) (w1 : W) :
  cond st = true -> ctx (world st) = false ->
  supply (world st) = ((v, None), w1) ->
  step st =
  Finished (mkOutcome (v, None) w1
                      (trace st ++ [PollDone false; CallSupply v None])).
Proof.
  intros Hc Hd Hs. unfold loop_step, loop_body. now rewrite Hc, Hd, Hs.
Qed.

Lemma loop_step_fail (st : loop_state) (v : T) (e : error E T) (w1 : W) :
  cond st = true -> ctx (world st) = false ->
  supply (world st) = ((v, Some e), w1) ->
  step st =
  Running (mkLoop v (Some e)
             (calcNextInterval unrepresentable (nextInterval_ st)
                (getMaxInterval p) (getBackOffCoefficient p))
             (if getMaxAttempts p >? 0 then Int64.incr (i st) else i st)
             (slp (nextInterval_ st) w1)
             (trace st ++ [PollDone false; CallSupply v (Some e);
                           CallSleep (nextInterval_ st)])).
Proof.
  intros Hc Hd Hs. unfold loop_step, loop_body. now rewrite Hc, Hd, Hs.
Qed.

Lemma loop_iter_Finished (k : nat) o : iter k (Finished o) = Finished o.
Proof. destruct k; reflexivity. Qed.

Lemma loop_iter_add (a b : nat) (s : status) :
  iter (a + b) s = iter b (iter a s).
Proof.
  revert s. induction a as [|a IH]; intros s; simpl.
  - reflexivity.
  - destruct s as [st|o].
    + apply IH.
    + now rewrite loop_iter_Finished.
Qed.

Lemma loop_iter_snoc (k : nat) (s : status) :
  iter (S k) s = iter 1 (iter k s).
Proof. rewrite <- loop_iter_add. f_equal. lia. Qed.

(** Once finished, more fuel changes nothing. *)
Lemma loop_iter_finished_mono (a b : nat) (s : status) o :
  (a <= b)%nat -> iter a s = Finished o -> iter b s = Finished o.
Proof.
  intros Hab Ha. replace b with (a + (b - a))%nat by lia.
  now rewrite loop_iter_add, Ha, loop_iter_Finished.
Qed.

(** A property of loop states kept by every pass holds after any number of
    passes. *)
Lemma loop_iter_running_inv (I : loop_state -> Prop) :
  (forall st st', I st -> step st = Running st' -> I st') ->
  forall k st st', I st -> iter k (Running st) = Running st' -> I st'.
Proof.
  intros Hstep. induction k as [|k IH]; intros st st' HI Hk; simpl in Hk.
  - now inversion Hk; subst.
  - destruct (step st) as [st1|o] eqn:Hs.
    + eapply IH; [eapply Hstep; eassumption | exact Hk].
    + now rewrite loop_iter_Finished in Hk.
Qed.

(** ... and what every exit establishes from it holds of the outcome. *)
Lemma loop_iter_finished_inv (I : loop_state -> Prop)
      (Q : outcome W E T (T * option (error E T)) -> Prop) :
  (forall st st', I st -> step st = Running st' -> I st') ->
  (forall st o, I st -> step st = Finished o -> Q o) ->
  forall k st o, I st -> iter k (Running st) = Finished o -> Q o.
Proof.
  intros Hstep Hexit. induction k as [|k IH]; intros st o HI Hk; simpl in Hk.
  - discriminate.
  - destruct (step st) as [st1|o1] eqn:Hs.
    + eapply IH; [eapply Hstep; eassumption | exact Hk].
    + rewrite loop_iter_Finished in Hk. inversion Hk; subst.
      eapply Hexit; eassumption.
Qed.

(** Every pass either cancels, succeeds, fails or leaves the loop. *)
Lemma loop_step_cases (st : loop_state) :
  (cond st = false /\
   step st = Finished (mkOutcome (res st, err st) (world st) (trace st)))
  \/ (cond st = true /\ ctx (world st) = true /\
      step st =
      Finished (mkOutcome (res st, Some (DeadlineExceededError (res st) (err st)))
                          (world st) (trace st ++ [PollDone true])))
  \/ (exists v w1, cond st = true /\ ctx (world st) = false /\
      supply (world st) = ((v, None), w1) /\
      step st =
      Finished (mkOutcome (v, None) w1
                          (trace st ++ [PollDone false; CallSupply v None])))
  \/ (exists v e w1, cond st = true /\ ctx (world st) = false /\
      supply (world st) = ((v, Some e), w1) /\
      step st =
      Running (mkLoop v (Some e)
                 (calcNextInterval unrepresentable (nextInterval_ st)
                    (getMaxInterval p) (getBackOffCoefficient p))
                 (if getMaxAttempts p >? 0 then Int64.incr (i st) else i st)
                 (slp (nextInterval_ st) w1)
                 (trace st ++ [PollDone false; CallSupply v (Some e);
                               CallSleep (nextInterval_ st)]))).
Proof.
  destruct (cond st) eqn:Hc.
  - destruct (ctx (world st)) eqn:Hd.
    + right; left. repeat split. now apply loop_step_cancel.
    + destruct (supply (world st)) as [[v [e|]] w1] eqn:Hs.
      * right; right; right. exists v, e, w1. repeat split.
        now apply loop_step_fail.
      * right; right; left. exists v, w1. repeat split.
        now apply loop_step_success.
  - left. split; [reflexivity | now apply loop_step_exit].
Qed.

End ExecutorFacts.

(** ** Traces *)

Lemma invocations_app {E T} (tr1 tr2 : list (event E T)) :
  invocations (tr1 ++ tr2) = (invocations tr1 + invocations tr2)%nat.
Proof. unfold invocations. now rewrite filter_app, length_app. Qed.


Lemma sleeps_app {E T} (tr1 tr2 : list (event E T)) :
  sleeps (tr1 ++ tr2) = sleeps tr1 ++ sleeps tr2.
Proof.
  induction tr1 as [|ev tr1 IH]; simpl.
  - reflexivity.
  - destruct ev; simpl; now rewrite IH.
Qed.

Lemma last_observed_app {E T} (tr1 tr2 : list (event E T)) acc :
  last_observed (tr1 ++ tr2) acc = last_observed tr2 (last_observed tr1 acc).
Proof.
  revert acc. induction tr1 as [|ev tr1 IH]; intros acc; simpl.
  - reflexivity.
  - destruct ev; apply IH.
Qed.

Lemma failed_rounds_invocations {E T} (k : nat) (tr : list (event E T)) :
  failed_rounds k tr -> invocations tr = k.
Proof.
  induction 1 as [|k tr v e d _ IH].
  - reflexivity.
  - rewrite invocations_app, IH. unfold invocations. simpl. lia.
Qed.


Lemma wrap_in_range (z : Z) : Int64.in_range z -> Int64.wrap z = z.
Proof.
  unfold Int64.in_range, Int64.wrap, Int64.min_int64, Int64.max_int64.
  change (2 ^ 63) with 9223372036854775808.
  change (2 ^ 64) with 18446744073709551616.
  intros Hz. rewrite Z.mod_small; lia.
Qed.

(** ** Exhausting a bounded number of attempts *)

Section Exhaustion.

Context {W E T P : Type} `{policy P}.

Variable unrepresentable : float64 -> Z.
Variable ctx : W -> bool.
Variable slp : Duration -> W -> W.
Variable supply : W -> (T * option (error E T)) * W.
Variable zeroT : T.
Variable p : P.

Variable n : Z.
Variable e0 : error E T.

Hypothesis n_bounded : 1 <= n <= Int64.max_int64.
Hypothesis maxAttempts_n : getMaxAttempts p = n.
Hypothesis never_cancelled : forall w, ctx w = false.
Hypothesis always_fails : forall w, snd (fst (supply w)) = Some e0.

(** After [m <= n] passes the loop is at its head again, the counter is [m]
    and the trace is [m] failed rounds. *)
Lemma failing_passes (w : W) (m : nat) :
  Z.of_nat m <= n ->
  exists st,
    Supply_status unrepresentable ctx slp supply zeroT p m w = Running st
    /\ i st = Z.of_nat m
    /\ failed_rounds m (trace st)
    /\ (res st, err st) = last_observed (trace st) (zeroT, None)
    /\ ((0 < m)%nat -> err st = Some e0).
Proof.
  unfold Supply_status. induction m as [|m IH]; intros Hm.
  - exists (initial zeroT p w). simpl. repeat split.
    + constructor.
    + lia.
  - destruct IH as (st & Hrun & Hi & Htr & Hlast & _); [lia|].
    rewrite loop_iter_snoc, Hrun. simpl.
    destruct (supply (world st)) as [[v oe] w1] eqn:Hs.
    pose proof (always_fails (world st)) as Hf. rewrite Hs in Hf. simpl in Hf.
    subst oe.
    assert (Hc : loop_cond p st = true).
    { unfold loop_cond. rewrite Hi, maxAttempts_n.
      apply orb_true_iff. right. apply Z.ltb_lt. lia. }
    rewrite (loop_step_fail _ _ _ _ _ st v e0 w1 Hc (never_cancelled _) Hs).
    eexists. split; [reflexivity|]. simpl. repeat split.
    + rewrite maxAttempts_n.
      replace (n >? 0) with true by (symmetry; apply Z.gtb_lt; lia).
      unfold Int64.incr. rewrite wrap_in_range.
      * rewrite Hi. lia.
      * unfold Int64.in_range, Int64.min_int64, Int64.max_int64 in *.
        change (2 ^ 63) with 9223372036854775808 in *. lia.
    + now constructor.
    + now rewrite last_observed_app.
Qed.

(** With the counter at [n] the loop is left with [return res, err]. *)
Lemma exhausted_outcome (w : W) :
  exists o,
    Supply_status unrepresentable ctx slp supply zeroT p (S (Z.to_nat n)) w
    = Finished o
    /\ snd (ret o) = Some e0
    /\ ret o = last_observed (trace_of o) (zeroT, None)
    /\ failed_rounds (Z.to_nat n) (trace_of o).
Proof.
  destruct (failing_passes w (Z.to_nat n)) as (st & Hrun & Hi & Htr & Hlast & He);
    [lia|].
  unfold Supply_status in *.
  rewrite loop_iter_snoc, Hrun. simpl.
  assert (Hc : loop_cond p st = false).
  { unfold loop_cond. rewrite Hi, maxAttempts_n, Z2Nat.id by lia.
    apply orb_false_iff. split; [apply Z.eqb_neq | apply Z.ltb_ge]; lia. }
  rewrite (loop_step_exit _ _ _ _ _ st Hc).
  eexists. split; [reflexivity|]. simpl. repeat split.
  - apply He. lia.
  - exact Hlast.
  - exact Htr.
Qed.

End Exhaustion.

Lemma wrapped_neq {E T : Type} (e : error E T) (v : T) :
  e <> DeadlineExceededError v (Some e).
Proof.
  intros Heq. apply (f_equal wrap_depth) in Heq. simpl in Heq. lia.
Qed.


(** ** Claims about exhausted attempts *)

(** C1. When the policy's [maxAttempts] is a bound [n >= 1], the operation
    fails with the error [e0] on every invocation and the cancellation signal
    never fires, [Supply] invokes the operation exactly [n] times and then
    returns the value of the last invocation together with [e0] itself: the
    returned error is not [e0] wrapped in a [DeadlineExceededError], and it
    is a deadline error only if [e0] is one already. *)
Theorem Supply_attempts_exhausted
  {W E T P : Type} `{policy P}
  (unrepresentable : float64 -> Z) (ctx : W -> bool)
  (slp : Duration -> W -> W)
  (supply : W -> (T * option (error E T)) * W) (zeroT : T) (p : P)
  (n : Z) (e0 : error E T) :
  1 <= n <= Int64.max_int64 ->
  getMaxAttempts p = n ->
  (forall w, ctx w = false) ->
  (forall w, snd (fst (supply w)) = Some e0) ->
  forall (w : W) (fuel : nat), (Z.to_nat n < fuel)%nat ->
  exists o,
    Supply unrepresentable ctx slp supply zeroT p fuel w = Some o
    /\ invocations (trace_of o) = Z.to_nat n
    /\ ret o = last_observed (trace_of o) (zeroT, None)
    /\ snd (ret o) = Some e0
    /\ snd (ret o) <> Some (DeadlineExceededError (fst (ret o)) (Some e0))
    /\ is_DeadlineExceeded (snd (ret o)) = is_DeadlineExceeded (Some e0).
Proof.
  intros Hn Hmax Hctx Hfail w fuel Hfuel.
  destruct (exhausted_outcome unrepresentable ctx slp supply zeroT p n e0
              Hn Hmax Hctx Hfail w) as (o & Hrun & He & Hlast & Htr).
  exists o. unfold Supply, Supply_status in *.
  assert (Hle : (S (Z.to_nat n) <= fuel)%nat) by lia.
  rewrite (loop_iter_finished_mono _ _ _ _ _ _ _ _ _ Hle Hrun).
  repeat split.
  - now apply failed_rounds_invocations.
  - exact Hlast.
  - exact He.
  - rewrite He. intros Heq. inversion Heq as [Heq'].
    now apply wrapped_neq in Heq'.
  - now rewrite He.
Qed.

Lemma Supply_attempts_exhausted_witness :
  exists o,
    Supply Float64.amd64 TestWorld.background TestWorld.fake_sleep
           TestWorld.always_failing false
           (BackOffPolicyBuilder.Build
              (BackOffPolicyBuilder.mk (100 * Millisecond) Second 3 Float64.two))
           4 TestWorld.start = Some o
    /\ invocations (trace_of o) = Z.to_nat 3
    /\ ret o = last_observed (trace_of o) (false, None)
    /\ snd (ret o) = Some (ForeignError TestWorld.AnError)
    /\ snd (ret o) <>
       Some (DeadlineExceededError (fst (ret o))
               (Some (ForeignError TestWorld.AnError)))
    /\ is_DeadlineExceeded (snd (ret o)) = false.
Proof.
  apply (Supply_attempts_exhausted Float64.amd64 TestWorld.background
           TestWorld.fake_sleep TestWorld.always_failing false
           (BackOffPolicyBuilder.Build
              (BackOffPolicyBuilder.mk (100 * Millisecond) Second 3 Float64.two))
           3 (ForeignError TestWorld.AnError)).
  - unfold Int64.max_int64. simpl. lia.
  - reflexivity.
  - reflexivity.
  - reflexivity.
  - simpl. lia.
Defined.



(** ** What every run keeps true *)

Section Reachable.

Context {W E T P : Type} `{policy P}.

Variable unrepresentable : float64 -> Z.
Variable ctx : W -> bool.
Variable slp : Duration -> W -> W.
Variable supply : W -> (T * option (error E T)) * W.
Variable zeroT : T.
Variable p : P.

Lemma head_inv_initial (w : W) : head_inv (E:=E) zeroT (initial zeroT p w).
Proof. split; [exists O; constructor | reflexivity]. Qed.

Lemma head_inv_step (st st' : loop_state) :
  head_inv zeroT st ->
  loop_step unrepresentable ctx slp supply p st = Running st' ->
  head_inv zeroT st'.
Proof.
  intros [[m Hm] Hlast] Hstep.
  destruct (loop_step_cases unrepresentable ctx slp supply p st)
    as [[_ Hs] | [(_ & _ & Hs) | [(v & w1 & _ & _ & _ & Hs)
                                 | (v & e & w1 & _ & _ & _ & Hs)]]];
    rewrite Hs in Hstep; try discriminate.
  inversion Hstep; subst st'; clear Hstep. split; simpl.
  - exists (S m). now constructor.
  - now rewrite last_observed_app.
Qed.

Lemma head_inv_reachable (k : nat) (w : W) (st : loop_state) :
  Supply_status unrepresentable ctx slp supply zeroT p k w = Running st ->
  head_inv zeroT st.
Proof.
  unfold Supply_status. intros Hk.
  eapply (loop_iter_running_inv unrepresentable ctx slp supply p (head_inv zeroT)).
  - apply head_inv_step.
  - apply head_inv_initial.
  - exact Hk.
Qed.

Lemma calcNextInterval_le_max (current maxInterval : Duration) (c : float64) :
  maxInterval <> unlimitedMaxInterval ->
  calcNextInterval unrepresentable current maxInterval c <= maxInterval.
Proof.
  intros Hmax. unfold calcNextInterval.
  destruct (unlimitedMaxInterval =? maxInterval) eqn:Hu.
  - apply Z.eqb_eq in Hu. congruence.
  - destruct (current =? maxInterval) eqn:Hc.
    + apply Z.eqb_eq in Hc. lia.
    + destruct (nextInterval unrepresentable current c >? maxInterval) eqn:Hn.
      * lia.
      * rewrite Z.gtb_ltb in Hn. apply Z.ltb_ge in Hn. exact Hn.
Qed.

Hypothesis limited : getMaxInterval p <> unlimitedMaxInterval.
Hypothesis initial_below : getInitialInterval p <= getMaxInterval p.

Lemma capped_inv_step (st : loop_state) :
  capped_inv p st ->
  match loop_step unrepresentable ctx slp supply p st with
  | Running st' => capped_inv p st'
  | Finished o => Forall (fun d => d <= getMaxInterval p) (sleeps (trace_of o))
  end.
Proof.
  intros [Hnext Hsl].
  destruct (loop_step_cases unrepresentable ctx slp supply p st)
    as [[_ Hs] | [(_ & _ & Hs) | [(v & w1 & _ & _ & _ & Hs)
                                 | (v & e & w1 & _ & _ & _ & Hs)]]];
    rewrite Hs; simpl.
  - exact Hsl.
  - rewrite sleeps_app. simpl. now rewrite app_nil_r.
  - rewrite sleeps_app. simpl. now rewrite app_nil_r.
  - split; simpl.
    + now apply calcNextInterval_le_max.
    + rewrite sleeps_app. simpl. apply Forall_app. split; [exact Hsl|].
      constructor; [exact Hnext | constructor].
Qed.

Lemma sleeps_capped (k : nat) (w : W) :
  Forall (fun d => d <= getMaxInterval p)
    (sleeps (status_trace
               (Supply_status unrepresentable ctx slp supply zeroT p k w))).
Proof.
  assert (Hinit : capped_inv (E:=E) p (initial zeroT p w)).
  { split; simpl; [exact initial_below | constructor]. }
  assert (Hrun : forall st st', capped_inv p st ->
            loop_step unrepresentable ctx slp supply p st = Running st' ->
            capped_inv p st').
  { intros st st' Hst Hs. pose proof (capped_inv_step st Hst) as Hc.
    now rewrite Hs in Hc. }
  unfold Supply_status.
  destruct (loop_iter unrepresentable ctx slp supply p k
              (Running (initial zeroT p w))) as [st|o] eqn:Hk; simpl.
  - apply (loop_iter_running_inv unrepresentable ctx slp supply p (capped_inv p)
             Hrun k _ st Hinit Hk).
  - apply (loop_iter_finished_inv unrepresentable ctx slp supply p (capped_inv p)
             (fun o => Forall (fun d => d <= getMaxInterval p)
                         (sleeps (trace_of o)))
             Hrun) with (k := k) (st := initial zeroT p w); try assumption.
    intros st o' Hst Hs. pose proof (capped_inv_step st Hst) as Hc.
    now rewrite Hs in Hc.
Qed.

End Reachable.

(** ** Claims about cancellation, clamping and unbounded loops *)

(** C2. The cancellation signal is checked at the head of every pass, before
    the operation is invoked.  Whenever a run of [Supply] is at the head of a
    pass (after [k] earlier passes) and the signal has fired, [Supply] returns
    in that pass without invoking the operation again: the world is
    untouched, the trace grows by the poll only, and the result is [res]
    with a [DeadlineExceededError] that carries [res] and [err], the value
    and the error of the last invocation.  Every earlier invocation followed
    a poll that found the signal quiet.  If the signal is seen before the
    first attempt, the carried value is the zero value and the carried error
    is nil. *)
Theorem Supply_cancelled_before_attempt
  {W E T P : Type} `{policy P}
  (unrepresentable : float64 -> Z) (ctx : W -> bool)
  (slp : Duration -> W -> W)
  (supply : W -> (T * option (error E T)) * W) (zeroT : T) (p : P)
  (k : nat) (w : W) (st : loop_state) :
  Supply_status unrepresentable ctx slp supply zeroT p k w = Running st ->
  loop_cond p st = true ->
  ctx (world st) = true ->
  (forall fuel, (k < fuel)%nat ->
     Supply unrepresentable ctx slp supply zeroT p fuel w =
     Some (mkOutcome
             (res st, Some (DeadlineExceededError (res st) (err st)))
             (world st) (trace st ++ [PollDone true])))
  /\ invocations (trace st ++ [PollDone true]) = invocations (trace st)
  /\ (res st, err st) = last_observed (trace st) (zeroT, None)
  /\ (exists m, failed_rounds m (trace st))
  /\ (k = O -> res st = zeroT /\ err st = None /\ world st = w).
Proof.
  intros Hrun Hc Hd.
  destruct (head_inv_reachable _ _ _ _ _ _ _ _ _ Hrun) as [Hshape Hlast].
  repeat split.
  - intros fuel Hfuel. unfold Supply, Supply_status in *.
    assert (Hfin : loop_iter unrepresentable ctx slp supply p (S k)
                     (Running (initial zeroT p w)) =
                   Finished (mkOutcome
                     (res st, Some (DeadlineExceededError (res st) (err st)))
                     (world st) (trace st ++ [PollDone true]))).
    { rewrite loop_iter_snoc, Hrun. simpl. now apply loop_step_cancel. }
    assert (Hle : (S k <= fuel)%nat) by lia.
    now rewrite (loop_iter_finished_mono _ _ _ _ _ _ _ _ _ Hle Hfin).
  - rewrite invocations_app. unfold invocations at 2. simpl. lia.
  - exact Hlast.
  - exact Hshape.
  - subst k. unfold Supply_status in Hrun. simpl in Hrun.
    inversion Hrun. reflexivity.
  - subst k. unfold Supply_status in Hrun. simpl in Hrun.
    inversion Hrun. reflexivity.
  - subst k. unfold Supply_status in Hrun. simpl in Hrun.
    inversion Hrun. reflexivity.
Qed.

Lemma Supply_cancelled_before_attempt_witness :
  exists st,
    Supply_status Float64.amd64 (TestWorld.deadline_at (150 * Millisecond))
      TestWorld.fake_sleep TestWorld.always_failing false
      (FixedDelayPolicyBuilder.Build
         (FixedDelayPolicyBuilder.mk (100 * Millisecond) undefinedMaxAttempts))
      2 TestWorld.start = Running st
    /\ (forall fuel, (2 < fuel)%nat ->
          Supply Float64.amd64 (TestWorld.deadline_at (150 * Millisecond))
            TestWorld.fake_sleep TestWorld.always_failing false
            (FixedDelayPolicyBuilder.Build
               (FixedDelayPolicyBuilder.mk (100 * Millisecond)
                                           undefinedMaxAttempts))
            fuel TestWorld.start =
          Some (mkOutcome
                  (res st, Some (DeadlineExceededError (res st) (err st)))
                  (world st) (trace st ++ [PollDone true])))
    /\ invocations (trace st ++ [PollDone true]) = invocations (trace st)
    /\ (res st, err st) = last_observed (trace st) (false, None)
    /\ (exists m, failed_rounds m (trace st))
    /\ (2%nat = O ->
        res st = false /\ err st = None /\ world st = TestWorld.start).
Proof.
  eexists. split; [vm_compute; reflexivity|].
  apply (Supply_cancelled_before_attempt Float64.amd64
           (TestWorld.deadline_at (150 * Millisecond))
           TestWorld.fake_sleep TestWorld.always_failing false
           (FixedDelayPolicyBuilder.Build
              (FixedDelayPolicyBuilder.mk (100 * Millisecond)
                                          undefinedMaxAttempts))
           2 TestWorld.start).
  - vm_compute. reflexivity.
  - reflexivity.
  - reflexivity.
Defined.

(** Cancelled before the first attempt: the zero value and a nil error. *)
Example Supply_cancelled_at_once :
  option_map ret
    (Supply Float64.amd64 TestWorld.cancelled TestWorld.fake_sleep
       TestWorld.always_failing false
       (FixedDelayPolicyBuilder.Build FixedDelayPolicyBuilder.zero_value)
       1 TestWorld.start)
  = Some (false, Some (DeadlineExceededError false None)).
Proof. reflexivity. Qed.

(** The scenario of the package's cancellation test: indefinite attempts, a
    deadline at 150ms, an operation that always fails. *)
Example Supply_deadline_150ms :
  option_map (fun o => (ret o, invocations (trace_of o)))
    (Supply Float64.amd64 (TestWorld.deadline_at (150 * Millisecond))
       TestWorld.fake_sleep TestWorld.always_failing false
       (BackOffPolicyBuilder.Build
          (BackOffPolicyBuilder.WithMaxAttemptsIndefinite
             (BackOffPolicyBuilder.mk (100 * Millisecond) Second 0 Float64.two)))
       3 TestWorld.start)
  = Some ((false,
           Some (DeadlineExceededError false
                   (Some (ForeignError TestWorld.AnError)))),
          2%nat).
Proof. vm_compute. reflexivity. Qed.

(** C6. For a backoff policy built with [initialInterval = 100ms],
    [maxInterval = 100ms] and [coefficient = 2.0], whatever its attempt
    bound, every duration [Supply] hands to the sleeper is at most 100ms:
    this holds of the trace after any number of passes, for every context,
    sleeper and operation. *)
Theorem Supply_sleeps_at_most_maxInterval
  {W E T : Type}
  (unrepresentable : float64 -> Z) (ctx : W -> bool)
  (slp : Duration -> W -> W)
  (supply : W -> (T * option (error E T)) * W) (zeroT : T)
  (maxAttempts : Z) (k : nat) (w : W) :
  let p := BackOffPolicyBuilder.Build
             (BackOffPolicyBuilder.WithMaxAttempts
                (BackOffPolicyBuilder.WithBackOffCoefficient
                   (BackOffPolicyBuilder.WithMaxInterval
                      (BackOffPolicyBuilder.WithInitialInterval
                         BackOffPolicyBuilder.zero_value (100 * Millisecond))
                      (100 * Millisecond))
                   Float64.two)
                maxAttempts) in
  getInitialInterval p = 100 * Millisecond
  /\ getMaxInterval p = 100 * Millisecond
  /\ getBackOffCoefficient p = Float64.two
  /\ Forall (fun d => d <= 100 * Millisecond)
       (sleeps (status_trace
                  (Supply_status unrepresentable ctx slp supply zeroT p k w))).
Proof.
  intros p. repeat split.
  assert (Hmax : getMaxInterval p = 100 * Millisecond) by reflexivity.
  rewrite <- Hmax.
  apply (sleeps_capped unrepresentable ctx slp supply zeroT p).
  - rewrite Hmax. discriminate.
  - reflexivity.
Qed.

(** C10. For every policy whose [getMaxAttempts] returns 0, with an operation
    that fails on every attempt and a context that is never cancelled,
    [Supply] never returns: the counter is incremented only when
    [maxAttempts] is positive, so it stays 0, the loop condition holds at the
    head of every pass, and after any number [fuel] of passes the loop is
    still running, having invoked the operation [fuel] times. *)
Theorem Supply_zero_maxAttempts_diverges
  {W E T P : Type} `{policy P}
  (unrepresentable : float64 -> Z) (ctx : W -> bool)
  (slp : Duration -> W -> W)
  (supply : W -> (T * option (error E T)) * W) (zeroT : T) (p : P) :
  getMaxAttempts p = 0 ->
  (forall w, ctx w = false) ->
  (forall w, snd (fst (supply w)) <> None) ->
  forall (fuel : nat) (w : W),
    Supply unrepresentable ctx slp supply zeroT p fuel w = None
    /\ exists st,
         Supply_status unrepresentable ctx slp supply zeroT p fuel w = Running st
         /\ i st = 0
         /\ loop_cond p st = true
         /\ invocations (trace st) = fuel.
Proof.
  intros Hmax Hctx Hfail fuel w.
  assert (Hrun : exists st,
             Supply_status unrepresentable ctx slp supply zeroT p fuel w
             = Running st
             /\ i st = 0 /\ failed_rounds fuel (trace st)).
  { unfold Supply_status. induction fuel as [|fuel IH].
    - exists (initial zeroT p w). simpl. repeat split. constructor.
    - destruct IH as (st & Hst & Hi & Htr).
      rewrite loop_iter_snoc, Hst. simpl.
      destruct (supply (world st)) as [[v oe] w1] eqn:Hs.
      pose proof (Hfail (world st)) as Hf. rewrite Hs in Hf. simpl in Hf.
      destruct oe as [e|]; [|congruence].
      assert (Hc : loop_cond p st = true).
      { unfold loop_cond. now rewrite Hi. }
      rewrite (loop_step_fail _ _ _ _ _ st v e w1 Hc (Hctx _) Hs).
      eexists. split; [reflexivity|]. simpl. split.
      + now rewrite Hmax.
      + now constructor. }
  destruct Hrun as (st & Hst & Hi & Htr). split.
  - unfold Supply. now rewrite Hst.
  - exists st. repeat split; try assumption.
    + unfold loop_cond. now rewrite Hi.
    + now apply failed_rounds_invocations.
Qed.

Lemma Supply_zero_maxAttempts_diverges_witness :
  Supply Float64.amd64 TestWorld.background TestWorld.fake_sleep
         TestWorld.always_failing false BackOffPolicy.zero_value
         10 TestWorld.start = None
  /\ exists st,
       Supply_status Float64.amd64 TestWorld.background TestWorld.fake_sleep
         TestWorld.always_failing false BackOffPolicy.zero_value
         10 TestWorld.start = Running st
       /\ i st = 0
       /\ loop_cond BackOffPolicy.zero_value st = true
       /\ invocations (trace st) = 10%nat.
Proof.
  apply (Supply_zero_maxAttempts_diverges Float64.amd64 TestWorld.background
           TestWorld.fake_sleep TestWorld.always_failing false
           BackOffPolicy.zero_value).
  - reflexivity.
  - reflexivity.
  - discriminate.
Defined.

(** ** Claims about the interval progression *)

(** The product [current * coefficient] is computed in [float64] and
    converted back to a [Duration], the fraction discarded. *)
Example nextInterval_fixed_delay :
  nextInterval Float64.amd64 Second fixedDelayBackOffCoefficient = Second.
Proof. vm_compute. reflexivity. Qed.

Example nextInterval_truncates :
  nextInterval Float64.amd64 3 Float64.three_halves = 4.
Proof. vm_compute. reflexivity. Qed.



Example calcNextInterval_clamps :
  calcNextInterval Float64.amd64 (800 * Millisecond) Second Float64.two = Second.
Proof. vm_compute. reflexivity. Qed.

Section Progression.

Context {W E T : Type}.

Variable unrepresentable : float64 -> Z.
Variable ctx : W -> bool.
Variable slp : Duration -> W -> W.
Variable supply : W -> (T * option (error E T)) * W.
Variable zeroT : T.

(** The number of calls the operation has seen. *)
Variable calls : W -> nat.

Hypothesis never_cancelled : forall w, ctx w = false.
Hypothesis sleep_keeps_calls : forall d w, calls (slp d w) = calls w.
Hypothesis supply_counts : forall w, calls (snd (supply w)) = S (calls w).
Hypothesis fails_1_to_4 :
  forall w, (calls w < 4)%nat -> snd (fst (supply w)) <> None.
Hypothesis succeeds_5th :
  forall w, calls w = 4%nat -> snd (fst (supply w)) = None.

Abbreviation pstep :=
  (loop_step unrepresentable ctx slp supply progression_policy).




End Progression.



(** In the simulated world the operation itself notes when it is called, as
    the package's test does. *)
Example progression_tryTimes :
  option_map (fun o => TestWorld.tryTimes (world_of o))
    (Supply Float64.amd64 TestWorld.background TestWorld.fake_sleep
            (TestWorld.failing_until 5) false progression_policy 5
            TestWorld.start)
  = Some [0; 100 * Millisecond; 300 * Millisecond; 700 * Millisecond;
          1500 * Millisecond].
Proof. vm_compute. reflexivity. Qed.

(** The fixed-delay scenario of the package's tests: attempts at 0, 100,
    200, 300 and 400 ms. *)
Example fixed_delay_tryTimes :
  option_map (fun o => (ret o, TestWorld.tryTimes (world_of o)))
    (Supply Float64.amd64 TestWorld.background TestWorld.fake_sleep
            (TestWorld.failing_until 5) false
            (FixedDelayPolicyBuilder.Build
               (FixedDelayPolicyBuilder.WithMaxAttempts
                  (FixedDelayPolicyBuilder.WithInterval
                     FixedDelayPolicyBuilder.zero_value (100 * Millisecond))
                  5))
            5 TestWorld.start)
  = Some ((true, None),
          [0; 100 * Millisecond; 200 * Millisecond; 300 * Millisecond;
           400 * Millisecond]).
Proof. vm_compute. reflexivity. Qed.

(** ** Claims about the builders *)

Lemma Float64_compare_zero_cases (c : float64) :
  Float64.is_nan c = true
  \/ Float64.leb c Float64.zero = true
  \/ (Float64.ltb Float64.zero c = true /\ Float64.leb c Float64.zero = false).
Proof.
  destruct c as [s|s| |s m e]; simpl.
  - right; left. reflexivity.
  - destruct s; [right; left | right; right]; auto.
  - left. reflexivity.
  - destruct s; [right; left | right; right]; auto.
Qed.

Lemma Float64_positive_not_le (c : float64) :
  Float64.ltb Float64.zero c = true -> Float64.leb c Float64.zero = false.
Proof.
  destruct c as [s|s| |s m e]; simpl; try discriminate;
    destruct s; simpl; try discriminate; reflexivity.
Qed.

(** The normalization [BackOffPolicyBuilder.Build] applies, field by field. *)
Lemma BackOff_Build_mapping (b : BackOffPolicyBuilder.t) :
  let p := BackOffPolicyBuilder.Build b in
  (BackOffPolicyBuilder.maxAttempts b = 0 ->
   BackOffPolicy.maxAttempts p = 3)
  /\ (BackOffPolicyBuilder.maxAttempts b < 0 ->
      BackOffPolicy.maxAttempts p = undefinedMaxAttempts)
  /\ (0 < BackOffPolicyBuilder.maxAttempts b ->
      BackOffPolicy.maxAttempts p = BackOffPolicyBuilder.maxAttempts b)
  /\ (BackOffPolicyBuilder.maxInterval b = 0 ->
      BackOffPolicy.maxInterval p = 30 * Second)
  /\ (BackOffPolicyBuilder.maxInterval b < 0 ->
      BackOffPolicy.maxInterval p = unlimitedMaxInterval)
  /\ (0 < BackOffPolicyBuilder.maxInterval b ->
      BackOffPolicy.maxInterval p = BackOffPolicyBuilder.maxInterval b)
  /\ (BackOffPolicyBuilder.initialInterval b <= 0 ->
      BackOffPolicy.initialInterval p = Second)
  /\ (0 < BackOffPolicyBuilder.initialInterval b ->
      BackOffPolicy.initialInterval p = BackOffPolicyBuilder.initialInterval b)
  /\ (Float64.leb (BackOffPolicyBuilder.backOffCoefficient b) Float64.zero = true ->
      BackOffPolicy.backOffCoefficient p = Float64.two)
  /\ (Float64.ltb Float64.zero (BackOffPolicyBuilder.backOffCoefficient b) = true ->
      BackOffPolicy.backOffCoefficient p
      = BackOffPolicyBuilder.backOffCoefficient b).
Proof.
  destruct b as [ii mi ma c]. simpl.
  unfold BackOffPolicyBuilder.resolveMaxAttempts,
    BackOffPolicyBuilder.resolveMaxInterval,
    BackOffPolicyBuilder.resolveInitialInterval,
    BackOffPolicyBuilder.resolveBackOffCoefficient,
    undefinedMaxAttempts, unlimitedMaxInterval; simpl.
  repeat split; intros Hx.
  - subst ma. reflexivity.
  - now replace (ma <? 0) with true by (symmetry; apply Z.ltb_lt; lia).
  - replace (ma <? 0) with false by (symmetry; apply Z.ltb_ge; lia).
    now replace (ma =? 0) with false by (symmetry; apply Z.eqb_neq; lia).
  - subst mi. reflexivity.
  - now replace (mi <? 0) with true by (symmetry; apply Z.ltb_lt; lia).
  - replace (mi <? 0) with false by (symmetry; apply Z.ltb_ge; lia).
    now replace (mi =? 0) with false by (symmetry; apply Z.eqb_neq; lia).
  - now replace (ii <=? 0) with true by (symmetry; apply Z.leb_le; lia).
  - now replace (ii <=? 0) with false by (symmetry; apply Z.leb_gt; lia).
  - now rewrite Hx.
  - now rewrite (Float64_positive_not_le c Hx).
Qed.

(** The same for [FixedDelayPolicyBuilder.Build]; the coefficient the
    executor reads from a fixed-delay policy is always 1.0 and its
    [maxInterval] is its interval. *)
Lemma FixedDelay_Build_mapping (b : FixedDelayPolicyBuilder.t) :
  let p := FixedDelayPolicyBuilder.Build b in
  (FixedDelayPolicyBuilder.maxAttempts b = 0 ->
   FixedDelayPolicy.maxAttempts p = 3)
  /\ (FixedDelayPolicyBuilder.maxAttempts b < 0 ->
      FixedDelayPolicy.maxAttempts p = undefinedMaxAttempts)
  /\ (0 < FixedDelayPolicyBuilder.maxAttempts b ->
      FixedDelayPolicy.maxAttempts p = FixedDelayPolicyBuilder.maxAttempts b)
  /\ (FixedDelayPolicyBuilder.interval b <= 0 ->
      FixedDelayPolicy.interval p = Second)
  /\ (0 < FixedDelayPolicyBuilder.interval b ->
      FixedDelayPolicy.interval p = FixedDelayPolicyBuilder.interval b)
  /\ getBackOffCoefficient p = Float64.one
  /\ getMaxInterval p = getInitialInterval p.
Proof.
  destruct b as [iv ma]. simpl.
  unfold FixedDelayPolicyBuilder.resolveMaxAttempts,
    FixedDelayPolicyBuilder.resolveInterval, undefinedMaxAttempts; simpl.
  repeat split; intros Hx.
  - subst ma. reflexivity.
  - now replace (ma <? 0) with true by (symmetry; apply Z.ltb_lt; lia).
  - replace (ma <? 0) with false by (symmetry; apply Z.ltb_ge; lia).
    now replace (ma =? 0) with false by (symmetry; apply Z.eqb_neq; lia).
  - now replace (iv <=? 0) with true by (symmetry; apply Z.leb_le; lia).
  - now replace (iv <=? 0) with false by (symmetry; apply Z.leb_gt; lia).
Qed.

(** The fields of a built policy are positive or one of the two sentinels,
    as long as the coefficient given to the builder is a number. *)
Lemma BackOff_Build_positive (b : BackOffPolicyBuilder.t) :
  Float64.is_nan (BackOffPolicyBuilder.backOffCoefficient b) = false ->
  fields_in_range (BackOffPolicyBuilder.Build b).
Proof.
  destruct b as [ii mi ma c]. unfold fields_in_range. simpl. intros Hnan.
  unfold BackOffPolicyBuilder.resolveMaxAttempts,
    BackOffPolicyBuilder.resolveMaxInterval,
    BackOffPolicyBuilder.resolveInitialInterval,
    BackOffPolicyBuilder.resolveBackOffCoefficient; simpl.
  repeat split.
  - destruct (ii <=? 0) eqn:Hi; [reflexivity | apply Z.leb_gt in Hi; lia].
  - destruct (mi <? 0) eqn:Hlt; [now right|].
    destruct (mi =? 0) eqn:Heq; [left; reflexivity|].
    apply Z.ltb_ge in Hlt. apply Z.eqb_neq in Heq. left. lia.
  - destruct (ma <? 0) eqn:Hlt; [now right|].
    destruct (ma =? 0) eqn:Heq; [left; reflexivity|].
    apply Z.ltb_ge in Hlt. apply Z.eqb_neq in Heq. left. lia.
  - destruct (Float64_compare_zero_cases c) as [Hn | [Hle | [Hgt Hle]]].
    + congruence.
    + rewrite Hle. reflexivity.
    + rewrite Hle. exact Hgt.
Qed.

Lemma FixedDelay_Build_positive (b : FixedDelayPolicyBuilder.t) :
  fields_in_range (FixedDelayPolicyBuilder.Build b).
Proof.
  destruct b as [iv ma]. unfold fields_in_range. simpl.
  unfold FixedDelayPolicyBuilder.resolveMaxAttempts,
    FixedDelayPolicyBuilder.resolveInterval; simpl.
  assert (Hiv : 0 < (if iv <=? 0 then defaultInitialInterval else iv)).
  { destruct (iv <=? 0) eqn:Hi; [reflexivity | apply Z.leb_gt in Hi; lia]. }
  split; [exact Hiv|]. split; [left; exact Hiv|]. split; [|reflexivity].
  destruct (ma <? 0) eqn:Hlt; [now right|].
  destruct (ma =? 0) eqn:Heq; [left; reflexivity|].
  apply Z.ltb_ge in Hlt. apply Z.eqb_neq in Heq. left. lia.
Qed.

(** C5, as the code has it.  [Build] is total and follows the normalization
    mapping: [maxAttempts = 0] maps to 3 and [maxAttempts < 0] to the
    indefinite sentinel, [maxInterval = 0] to 30s and [maxInterval < 0] to
    the unlimited sentinel, [initialInterval <= 0] to 1s,
    [coefficient <= 0] to 2.0; a fixed-delay policy's coefficient is always
    1.0 and its [interval <= 0] maps to 1s; all positive inputs are kept
    unchanged.  A NaN coefficient is neither [<= 0] nor positive and is kept
    unchanged too.  Consequently the numeric fields of every built policy
    are positive except for the two sentinels, provided the coefficient
    given to a backoff builder is not NaN. *)
Theorem Build_normalization
  (b : BackOffPolicyBuilder.t) (f : FixedDelayPolicyBuilder.t) :
  let p := BackOffPolicyBuilder.Build b in
  let q := FixedDelayPolicyBuilder.Build f in
  ((BackOffPolicyBuilder.maxAttempts b = 0 ->
    BackOffPolicy.maxAttempts p = 3)
   /\ (BackOffPolicyBuilder.maxAttempts b < 0 ->
       BackOffPolicy.maxAttempts p = undefinedMaxAttempts)
   /\ (0 < BackOffPolicyBuilder.maxAttempts b ->
       BackOffPolicy.maxAttempts p = BackOffPolicyBuilder.maxAttempts b)
   /\ (BackOffPolicyBuilder.maxInterval b = 0 ->
       BackOffPolicy.maxInterval p = 30 * Second)
   /\ (BackOffPolicyBuilder.maxInterval b < 0 ->
       BackOffPolicy.maxInterval p = unlimitedMaxInterval)
   /\ (0 < BackOffPolicyBuilder.maxInterval b ->
       BackOffPolicy.maxInterval p = BackOffPolicyBuilder.maxInterval b)
   /\ (BackOffPolicyBuilder.initialInterval b <= 0 ->
       BackOffPolicy.initialInterval p = Second)
   /\ (0 < BackOffPolicyBuilder.initialInterval b ->
       BackOffPolicy.initialInterval p = BackOffPolicyBuilder.initialInterval b)
   /\ (Float64.leb (BackOffPolicyBuilder.backOffCoefficient b) Float64.zero
       = true ->
       BackOffPolicy.backOffCoefficient p = Float64.two)
   /\ (Float64.ltb Float64.zero (BackOffPolicyBuilder.backOffCoefficient b)
       = true ->
       BackOffPolicy.backOffCoefficient p
       = BackOffPolicyBuilder.backOffCoefficient b))
  /\ (Float64.is_nan (BackOffPolicyBuilder.backOffCoefficient b) = true ->
      BackOffPolicy.backOffCoefficient p
      = BackOffPolicyBuilder.backOffCoefficient b)
  /\ ((FixedDelayPolicyBuilder.maxAttempts f = 0 ->
       FixedDelayPolicy.maxAttempts q = 3)
      /\ (FixedDelayPolicyBuilder.maxAttempts f < 0 ->
          FixedDelayPolicy.maxAttempts q = undefinedMaxAttempts)
      /\ (0 < FixedDelayPolicyBuilder.maxAttempts f ->
          FixedDelayPolicy.maxAttempts q = FixedDelayPolicyBuilder.maxAttempts f)
      /\ (FixedDelayPolicyBuilder.interval f <= 0 ->
          FixedDelayPolicy.interval q = Second)
      /\ (0 < FixedDelayPolicyBuilder.interval f ->
          FixedDelayPolicy.interval q = FixedDelayPolicyBuilder.interval f)
      /\ getBackOffCoefficient q = Float64.one
      /\ getMaxInterval q = getInitialInterval q)
  /\ (Float64.is_nan (BackOffPolicyBuilder.backOffCoefficient b) = false ->
      fields_in_range p)
  /\ fields_in_range q.
Proof.
  intros p q. split; [apply BackOff_Build_mapping|].
  split.
  { intros Hnan. subst p. destruct b as [ii mi ma c]. simpl in *.
    destruct c; try discriminate. reflexivity. }
  split; [apply FixedDelay_Build_mapping|].
  split; [apply BackOff_Build_positive | apply FixedDelay_Build_positive].
Qed.

Lemma Build_normalization_witness :
  let b := BackOffPolicyBuilder.mk (-5) 0 (-7) Float64.zero in
  let f := FixedDelayPolicyBuilder.mk (200 * Millisecond) 0 in
  BackOffPolicyBuilder.Build b
  = BackOffPolicy.mk Second (30 * Second) undefinedMaxAttempts Float64.two
  /\ FixedDelayPolicyBuilder.Build f
     = FixedDelayPolicy.mk (200 * Millisecond) 3
  /\ fields_in_range (BackOffPolicyBuilder.Build b)
  /\ fields_in_range (FixedDelayPolicyBuilder.Build f).
Proof.
  intros b f.
  destruct (Build_normalization b f) as (_ & _ & _ & Hpos & Hfixed).
  split; [reflexivity|]. split; [reflexivity|]. split.
  - apply Hpos. reflexivity.
  - exact Hfixed.
Defined.

(** The fields of a built policy are not always in range: the policy built
    from a NaN coefficient keeps it, and NaN is not positive. *)
Lemma Build_NaN_coefficient_out_of_range :
  ~ fields_in_range
      (BackOffPolicyBuilder.Build
         (BackOffPolicyBuilder.WithBackOffCoefficient
            BackOffPolicyBuilder.zero_value Float64.nan)).
Proof.
  intros (_ & _ & _ & Hc). vm_compute in Hc. discriminate.
Qed.

Example Build_NaN_coefficient_kept :
  BackOffPolicy.BackOffCoefficient
    (BackOffPolicyBuilder.Build
       (BackOffPolicyBuilder.WithBackOffCoefficient
          BackOffPolicyBuilder.zero_value Float64.nan))
  = Float64.nan.
Proof. reflexivity. Qed.

(** With such a policy the interval after the first is whatever the
    platform converts NaN to. *)
Example nextInterval_NaN :
  nextInterval Float64.amd64 Second Float64.nan = Int64.min_int64.
Proof. vm_compute. reflexivity. Qed.

(** ** Run *)

Section SupplyExt.

Context {W E T P : Type} `{policy P}.

Variable unrepresentable : float64 -> Z.
Variable ctx : W -> bool.
Variable slp : Duration -> W -> W.
Variables supply1 supply2 : W -> (T * option (error E T)) * W.
Variable zeroT : T.
Variable p : P.

Hypothesis same_operation : forall w, supply1 w = supply2 w.

Lemma loop_step_ext (st : loop_state) :
  loop_step unrepresentable ctx slp supply1 p st
  = loop_step unrepresentable ctx slp supply2 p st.
Proof.
  unfold loop_step, loop_body. now rewrite same_operation.
Qed.

Lemma loop_iter_ext (k : nat) (s : status) :
  loop_iter unrepresentable ctx slp supply1 p k s
  = loop_iter unrepresentable ctx slp supply2 p k s.
Proof.
  revert s. induction k as [|k IH]; intros s; simpl.
  - reflexivity.
  - destruct s as [st|o]; [|reflexivity].
    rewrite loop_step_ext. apply IH.
Qed.

(** [Supply] depends on the operation only through what it returns. *)
Lemma Supply_ext (fuel : nat) (w : W) :
  Supply unrepresentable ctx slp supply1 zeroT p fuel w
  = Supply unrepresentable ctx slp supply2 zeroT p fuel w.
Proof.
  unfold Supply, Supply_status. now rewrite loop_iter_ext.
Qed.

End SupplyExt.

(** C7. For every context, sleeper, error-only operation and policy, [Run]
    returns exactly the error component of [Supply] applied to the same
    context, sleeper and policy with the operation lifted to return a
    placeholder value alongside its error; in particular, when that [Supply]
    succeeds [Run] returns nil, and nothing of the placeholder value is
    returned. *)
Theorem Run_returns_error_of_Supply
  {W E P : Type} `{policy P} (any : Type) (nil_any : any)
  (unrepresentable : float64 -> Z) (ctx : W -> bool)
  (slp : Duration -> W -> W)
  (run : W -> option (error E any) * W) (p : P) (fuel : nat) (w : W) :
  Run any nil_any unrepresentable ctx slp run p fuel w
  = Run_spec nil_any unrepresentable ctx slp run p fuel w
  /\ forall o,
       Supply unrepresentable ctx slp (lift_with_placeholder nil_any run)
              nil_any p fuel w = Some o ->
       snd (ret o) = None ->
       Run any nil_any unrepresentable ctx slp run p fuel w
       = Some (mkOutcome None (world_of o) (trace_of o)).
Proof.
  assert (Hext : forall w', runFuncToSupplyFunc any nil_any run w'
                            = lift_with_placeholder nil_any run w').
  { intros w'. unfold runFuncToSupplyFunc, lift_with_placeholder.
    now destruct (run w'). }
  assert (Hrun : Run any nil_any unrepresentable ctx slp run p fuel w
                 = Run_spec nil_any unrepresentable ctx slp run p fuel w).
  { unfold Run, Run_spec.
    rewrite (Supply_ext unrepresentable ctx slp _ _ nil_any p Hext fuel w).
    destruct (Supply unrepresentable ctx slp
                (lift_with_placeholder nil_any run) nil_any p fuel w);
      reflexivity. }
  split; [exact Hrun|].
  intros o Ho Hnone. rewrite Hrun. unfold Run_spec. rewrite Ho. simpl.
  now rewrite Hnone.
Qed.

Lemma Run_returns_error_of_Supply_witness :
  let run := fun w : nat => (@None (error unit unit), S w) in
  let p := FixedDelayPolicyBuilder.Build
             (FixedDelayPolicyBuilder.mk (200 * Millisecond) 3) in
  Run unit tt Float64.amd64 (fun _ => false) (fun _ w => w) run p 1 O
  = Some (mkOutcome None 1%nat [PollDone false; CallSupply tt None]).
Proof.
  intros run p.
  apply (proj2 (Run_returns_error_of_Supply unit tt Float64.amd64
                  (fun _ => false) (fun _ w => w) run p 1 O)
               (mkOutcome (tt, None) 1%nat [PollDone false; CallSupply tt None])).
  - reflexivity.
  - reflexivity.
Defined.




(** What each [With*] returns: the receiver's fields, one of them replaced. *)
Lemma BackOff_With_fields (b : BackOffPolicyBuilder.t) (d : Duration) (n : Z)
      (c : float64) :
  let mk := BackOffPolicyBuilder.mk in
  let ii := BackOffPolicyBuilder.initialInterval b in
  let mi := BackOffPolicyBuilder.maxInterval b in
  let ma := BackOffPolicyBuilder.maxAttempts b in
  let co := BackOffPolicyBuilder.backOffCoefficient b in
  BackOffPolicyBuilder.WithInitialInterval b d = mk d mi ma co
  /\ BackOffPolicyBuilder.WithMaxInterval b d = mk ii d ma co
  /\ BackOffPolicyBuilder.WithMaxIntervalUnlimited b = mk ii (-1) ma co
  /\ BackOffPolicyBuilder.WithMaxAttempts b n = mk ii mi n co
  /\ BackOffPolicyBuilder.WithMaxAttemptsIndefinite b = mk ii mi (-1) co
  /\ BackOffPolicyBuilder.WithBackOffCoefficient b c = mk ii mi ma c.
Proof. repeat split. Qed.

Lemma FixedDelay_With_fields (b : FixedDelayPolicyBuilder.t) (d : Duration)
      (n : Z) :
  let mk := FixedDelayPolicyBuilder.mk in
  FixedDelayPolicyBuilder.WithInterval b d
  = mk d (FixedDelayPolicyBuilder.maxAttempts b)
  /\ FixedDelayPolicyBuilder.WithMaxAttempts b n
     = mk (FixedDelayPolicyBuilder.interval b) n
  /\ FixedDelayPolicyBuilder.WithMaxAttemptsIndefinite b
     = mk (FixedDelayPolicyBuilder.interval b) (-1).
Proof. repeat split. Qed.



(** * Further properties of the code *)

(** ** Invariants of a run, whatever the collaborators do *)

Section StatusInvariant.

Context {W E T P : Type} `{policy P}.

Variable unrepresentable : float64 -> Z.
Variable ctx : W -> bool.
Variable slp : Duration -> W -> W.
Variable supply : W -> (T * option (error E T)) * W.
Variable zeroT : T.
Variable p : P.

(** A property of the head of the loop that every pass keeps, together with
    what every return establishes from it, holds of the status after any
    number of passes. *)
Lemma Supply_status_inv (I : @loop_state W E T -> Prop)
      (Q : outcome W E T (T * option (error E T)) -> Prop) (w : W) :
  I (initial zeroT p w) ->
  (forall st, I st ->
     match loop_step unrepresentable ctx slp supply p st with
     | Running st' => I st'
     | Finished o => Q o
     end) ->
  forall k,
    match Supply_status unrepresentable ctx slp supply zeroT p k w with
    | Running st => I st
    | Finished o => Q o
    end.
Proof.
  intros Hinit Hstep. unfold Supply_status. induction k as [|k IH].
  - exact Hinit.
  - rewrite loop_iter_snoc.
    destruct (loop_iter unrepresentable ctx slp supply p k
                (Running (initial zeroT p w))) as [st|o]; simpl.
    + now apply Hstep.
    + exact IH.
Qed.

(** What the head of the loop knows about the rounds played so far. *)
Lemma rounds_inv_step (st : @loop_state W E T) :
  (exists m,
     failed_rounds m (trace st)
     /\ (res st, err st) = last_observed (trace st) (zeroT, None)
     /\ (i st <> 0 -> (0 < m)%nat /\ 0 < getMaxAttempts p)
     /\ ((0 < m)%nat -> err st <> None)) ->
  match loop_step unrepresentable ctx slp supply p st with
  | Running st' =>
      exists m,
        failed_rounds m (trace st')
        /\ (res st', err st') = last_observed (trace st') (zeroT, None)
        /\ (i st' <> 0 -> (0 < m)%nat /\ 0 < getMaxAttempts p)
        /\ ((0 < m)%nat -> err st' <> None)
  | Finished o => succeeded o \/ cancelled ctx zeroT o \/ exhausted p zeroT o
  end.
Proof.
  intros (m & Hm & Hlast & Hi & Herr).
  destruct (loop_step_cases unrepresentable ctx slp supply p st)
    as [[Hc Hs] | [(_ & Hd & Hs) | [(v & w1 & _ & _ & _ & Hs)
                                  | (v & e & w1 & _ & _ & _ & Hs)]]];
    rewrite Hs.
  - right; right. unfold loop_cond in Hc. apply orb_false_iff in Hc.
    destruct Hc as [Hne _]. apply Z.eqb_neq in Hne.
    destruct (Hi Hne) as [Hpos Hmax].
    destruct m as [|m]; [lia|].
    destruct (err st) as [e|] eqn:He; [|exfalso; now apply Herr].
    exists m, e. simpl. repeat split; assumption.
  - right; left. exists m, (trace st). simpl. repeat split; try assumption.
    now rewrite <- Hlast.
  - left. exists m, (trace st), v. simpl. now repeat split.
  - exists (S m). simpl. split; [now constructor|].
    split; [now rewrite last_observed_app|].
    split; [|discriminate].
    intros Hne. split; [lia|].
    destruct (getMaxAttempts p >? 0) eqn:Hmax.
    + apply Z.gtb_lt in Hmax. lia.
    + now apply Hi.
Qed.

Lemma rounds_inv_initial (w : W) :
  exists m,
    failed_rounds m (trace (initial (E:=E) zeroT p w))
    /\ (res (initial (E:=E) zeroT p w), err (initial (E:=E) zeroT p w))
       = last_observed (trace (initial (E:=E) zeroT p w)) (zeroT, None)
    /\ (i (initial (E:=E) zeroT p w) <> 0 ->
        (0 < m)%nat /\ 0 < getMaxAttempts p)
    /\ ((0 < m)%nat -> err (initial (E:=E) zeroT p w) <> None).
Proof.
  exists O. simpl. split; [constructor|]. split; [reflexivity|].
  split; [intros Hne; now elim Hne | lia].
Qed.

End StatusInvariant.



(** ** The attempt counter *)

Section Counter.

Context {W E T P : Type} `{policy P}.

Variable unrepresentable : float64 -> Z.
Variable ctx : W -> bool.
Variable slp : Duration -> W -> W.
Variable supply : W -> (T * option (error E T)) * W.
Variable zeroT : T.
Variable p : P.

(** With a positive bound the counter counts the invocations and stays
    within the bound, so its increment never wraps. *)
Lemma counter_inv_step (st : @loop_state W E T) :
  1 <= getMaxAttempts p <= Int64.max_int64 ->
  i st = Z.of_nat (invocations (trace st)) /\ 0 <= i st <= getMaxAttempts p ->
  match loop_step unrepresentable ctx slp supply p st with
  | Running st' =>
      i st' = Z.of_nat (invocations (trace st'))
      /\ 0 <= i st' <= getMaxAttempts p
  | Finished o => Z.of_nat (invocations (trace_of o)) <= getMaxAttempts p
  end.
Proof.
  intros Hn [Hi Hb].
  destruct (loop_step_cases unrepresentable ctx slp supply p st)
    as [[Hc Hs] | [(Hc & _ & Hs) | [(v & w1 & Hc & _ & _ & Hs)
                                   | (v & e & w1 & Hc & _ & _ & Hs)]]];
    rewrite Hs; simpl;
    try (unfold loop_cond in Hc; apply orb_true_iff in Hc;
         rewrite Z.eqb_eq, Z.ltb_lt in Hc).
  - lia.
  - rewrite invocations_app. unfold invocations at 2. simpl. lia.
  - rewrite invocations_app. unfold invocations at 2. simpl. lia.
  - replace (getMaxAttempts p >? 0) with true
      by (symmetry; apply Z.gtb_lt; lia).
    unfold Int64.incr. rewrite wrap_in_range.
    + rewrite invocations_app. unfold invocations at 2. simpl. lia.
    + unfold Int64.in_range, Int64.min_int64, Int64.max_int64 in *.
      change (2 ^ 63) with 9223372036854775808 in *. lia.
Qed.

(** With a bound that is not positive the counter stays 0 and the loop is
    never left through its condition. *)
Lemma indefinite_inv_step (st : @loop_state W E T) :
  getMaxAttempts p <= 0 ->
  i st = 0 ->
  match loop_step unrepresentable ctx slp supply p st with
  | Running st' => i st' = 0
  | Finished o =>
      (exists v, ret o = (v, None))
      \/ (ctx (world_of o) = true
          /\ exists v e, ret o = (v, Some (DeadlineExceededError v e)))
  end.
Proof.
  intros Hmax Hi.
  destruct (loop_step_cases unrepresentable ctx slp supply p st)
    as [[Hc Hs] | [(_ & Hd & Hs) | [(v & w1 & _ & _ & _ & Hs)
                                  | (v & e & w1 & _ & _ & _ & Hs)]]];
    rewrite Hs; simpl.
  - unfold loop_cond in Hc. rewrite Hi in Hc. discriminate.
  - right. split; [exact Hd|]. now exists (res st), (err st).
  - left. now exists v.
  - now replace (getMaxAttempts p >? 0) with false
      by (symmetry; rewrite Z.gtb_ltb; apply Z.ltb_ge; lia).
Qed.

End Counter.

(** X2. With a positive attempt bound [n], [Supply] never invokes the
    operation more than [n] times, whatever the operation returns and
    whenever the context is done: after any number of passes the trace holds
    at most [n] invocations. *)
Theorem Supply_invocations_bounded
  {W E T P : Type} `{policy P}
  (unrepresentable : float64 -> Z) (ctx : W -> bool)
  (slp : Duration -> W -> W)
  (supply : W -> (T * option (error E T)) * W) (zeroT : T) (p : P)
  (k : nat) (w : W) :
  1 <= getMaxAttempts p <= Int64.max_int64 ->
  Z.of_nat (invocations
              (status_trace
                 (Supply_status unrepresentable ctx slp supply zeroT p k w)))
  <= getMaxAttempts p.
Proof.
  intros Hn.
  pose proof (Supply_status_inv unrepresentable ctx slp supply zeroT p
                (fun st => i st = Z.of_nat (invocations (trace st))
                           /\ 0 <= i st <= getMaxAttempts p)
                (fun o => Z.of_nat (invocations (trace_of o))
                          <= getMaxAttempts p) w) as Hinv.
  specialize (Hinv ltac:(simpl; unfold invocations; simpl; lia)
                   (fun st => counter_inv_step unrepresentable ctx slp supply
                                p st Hn) k).
  destruct (Supply_status unrepresentable ctx slp supply zeroT p k w)
    as [st|o]; simpl; lia.
Qed.

Lemma Supply_invocations_bounded_witness :
  Z.of_nat (invocations
              (status_trace
                 (Supply_status Float64.amd64
                    (TestWorld.deadline_at (250 * Millisecond))
                    TestWorld.fake_sleep (TestWorld.failing_until 7) false
                    progression_policy 20 TestWorld.start)))
  <= 5.
Proof.
  change 5 with (getMaxAttempts progression_policy).
  apply (Supply_invocations_bounded Float64.amd64
           (TestWorld.deadline_at (250 * Millisecond))
           TestWorld.fake_sleep (TestWorld.failing_until 7) false
           progression_policy 20 TestWorld.start).
  split; vm_compute; discriminate.
Defined.

(** X3. With an attempt bound that is not positive (the indefinite sentinel
    that [WithMaxAttemptsIndefinite] and every negative input build, or the
    0 of a zero-value policy) [Supply] never gives up on its own: whenever
    it returns, either the operation succeeded and the error is nil, or a
    poll found the context done and the error is a
    [DeadlineExceededError]. *)
Theorem Supply_indefinite_returns
  {W E T P : Type} `{policy P}
  (unrepresentable : float64 -> Z) (ctx : W -> bool)
  (slp : Duration -> W -> W)
  (supply : W -> (T * option (error E T)) * W) (zeroT : T) (p : P)
  (fuel : nat) (w : W) (o : outcome W E T (T * option (error E T))) :
  getMaxAttempts p <= 0 ->
  Supply unrepresentable ctx slp supply zeroT p fuel w = Some o ->
  (exists v, ret o = (v, None))
  \/ (ctx (world_of o) = true
      /\ exists v e, ret o = (v, Some (DeadlineExceededError v e))).
Proof.
  intros Hmax Hret. unfold Supply in Hret.
  pose proof (Supply_status_inv unrepresentable ctx slp supply zeroT p
                (fun st => i st = 0) _ w eq_refl
                (fun st => indefinite_inv_step unrepresentable ctx slp supply
                             p st Hmax) fuel) as Hinv.
  destruct (Supply_status unrepresentable ctx slp supply zeroT p fuel w)
    as [st|o']; [discriminate|].
  now inversion Hret; subst o'.
Qed.

Lemma Supply_indefinite_returns_witness :
  exists o,
    Supply Float64.amd64 (TestWorld.deadline_at (150 * Millisecond))
      TestWorld.fake_sleep TestWorld.always_failing false
      (BackOffPolicyBuilder.Build
         (BackOffPolicyBuilder.WithMaxAttemptsIndefinite
            (BackOffPolicyBuilder.WithInitialInterval
               BackOffPolicyBuilder.zero_value (100 * Millisecond))))
      3 TestWorld.start = Some o
    /\ ((exists v, ret o = (v, None))
        \/ (TestWorld.deadline_at (150 * Millisecond) (world_of o) = true
            /\ exists v e, ret o = (v, Some (DeadlineExceededError v e)))).
Proof.
  eexists. split; [vm_compute; reflexivity|].
  apply (Supply_indefinite_returns Float64.amd64
           (TestWorld.deadline_at (150 * Millisecond))
           TestWorld.fake_sleep TestWorld.always_failing false
           (BackOffPolicyBuilder.Build
              (BackOffPolicyBuilder.WithMaxAttemptsIndefinite
                 (BackOffPolicyBuilder.WithInitialInterval
                    BackOffPolicyBuilder.zero_value (100 * Millisecond))))
           3 TestWorld.start).
  - vm_compute. discriminate.
  - vm_compute. reflexivity.
Defined.

(** ** The schedule of sleeps *)

Lemma sleep_count_sleeps {E T : Type} (tr : list (event E T)) :
  sleep_count tr = length (sleeps tr).
Proof.
  unfold sleep_count. induction tr as [|ev tr IH]; simpl.
  - reflexivity.
  - destruct ev; simpl; now rewrite IH.
Qed.

Section Schedule.

Context {W E T P : Type} `{policy P}.

Variable unrepresentable : float64 -> Z.
Variable ctx : W -> bool.
Variable slp : Duration -> W -> W.
Variable supply : W -> (T * option (error E T)) * W.
Variable zeroT : T.
Variable p : P.

Lemma schedule_S (m : nat) :
  schedule unrepresentable p (S m)
  = schedule unrepresentable p m ++ [interval_at unrepresentable p m].
Proof. unfold schedule. now rewrite seq_S, map_app. Qed.

Lemma schedule_nth (m j : nat) :
  (j < m)%nat ->
  nth_error (schedule unrepresentable p m) j
  = Some (interval_at unrepresentable p j).
Proof.
  intros Hj. unfold schedule. rewrite nth_error_map, nth_error_seq.
  now replace (j <? m)%nat with true by (symmetry; apply Nat.ltb_lt; lia).
Qed.

Lemma schedule_length (m : nat) :
  length (schedule unrepresentable p m) = m.
Proof. unfold schedule. now rewrite length_map, length_seq. Qed.

Lemma schedule_inv_step (st : @loop_state W E T) :
  sleeps (trace st)
  = schedule unrepresentable p (length (sleeps (trace st)))
  /\ nextInterval_ st
     = interval_at unrepresentable p (length (sleeps (trace st))) ->
  match loop_step unrepresentable ctx slp supply p st with
  | Running st' =>
      sleeps (trace st')
      = schedule unrepresentable p (length (sleeps (trace st')))
      /\ nextInterval_ st'
         = interval_at unrepresentable p (length (sleeps (trace st')))
  | Finished o =>
      sleeps (trace_of o)
      = schedule unrepresentable p (length (sleeps (trace_of o)))
  end.
Proof.
  intros [Hsl Hnext].
  destruct (loop_step_cases unrepresentable ctx slp supply p st)
    as [[_ Hs] | [(_ & _ & Hs) | [(v & w1 & _ & _ & _ & Hs)
                                 | (v & e & w1 & _ & _ & _ & Hs)]]];
    rewrite Hs; simpl; rewrite ?sleeps_app; simpl; rewrite ?app_nil_r;
    try exact Hsl.
  rewrite length_app, Nat.add_1_r, schedule_S. simpl. split.
  - now rewrite <- Hsl, Hnext.
  - now rewrite Hnext.
Qed.

(** The sleeps of a run are the first intervals of the schedule. *)
Lemma sleeps_follow_schedule (k : nat) (w : W) :
  sleeps (status_trace
            (Supply_status unrepresentable ctx slp supply zeroT p k w))
  = schedule unrepresentable p
      (sleep_count
         (status_trace
            (Supply_status unrepresentable ctx slp supply zeroT p k w))).
Proof.
  pose proof (Supply_status_inv unrepresentable ctx slp supply zeroT p
                (fun st => sleeps (trace st)
                           = schedule unrepresentable p
                               (length (sleeps (trace st)))
                           /\ nextInterval_ st
                              = interval_at unrepresentable p
                                  (length (sleeps (trace st))))
                (fun o => sleeps (trace_of o)
                          = schedule unrepresentable p
                              (length (sleeps (trace_of o))))
                w (conj eq_refl eq_refl) schedule_inv_step k) as Hinv.
  rewrite sleep_count_sleeps.
  destruct (Supply_status unrepresentable ctx slp supply zeroT p k w)
    as [st|o]; simpl; [apply Hinv | exact Hinv].
Qed.

Lemma interval_at_le_max (k : nat) :
  getMaxInterval p <> unlimitedMaxInterval ->
  interval_at unrepresentable p (S k) <= getMaxInterval p.
Proof.
  intros Hlim. unfold interval_at. simpl.
  now apply calcNextInterval_le_max.
Qed.

Lemma interval_at_pinned (k j : nat) :
  getMaxInterval p <> unlimitedMaxInterval ->
  interval_at unrepresentable p k = getMaxInterval p ->
  (k <= j)%nat ->
  interval_at unrepresentable p j = getMaxInterval p.
Proof.
  intros Hlim Hk Hle. induction Hle as [|j Hle IH].
  - exact Hk.
  - unfold interval_at in *. simpl. rewrite IH. unfold calcNextInterval.
    destruct (unlimitedMaxInterval =? getMaxInterval p) eqn:Hu.
    + apply Z.eqb_eq in Hu. congruence.
    + now rewrite Z.eqb_refl.
Qed.

Lemma to_int64_in_range (x : float64) :
  (forall y, Int64.in_range (unrepresentable y)) ->
  Int64.in_range (Float64.to_int64 unrepresentable x).
Proof.
  intros Hun. unfold Float64.to_int64.
  destruct (Float64.truncate x) as [z|]; [|apply Hun].
  destruct (Int64.in_rangeb z) eqn:Hz; [|apply Hun].
  unfold Int64.in_rangeb in Hz. apply andb_true_iff in Hz.
  rewrite !Z.leb_le in Hz. exact Hz.
Qed.

Lemma calcNextInterval_in_range (current maxInterval : Duration)
      (c : float64) :
  (forall y, Int64.in_range (unrepresentable y)) ->
  Int64.in_range current ->
  Int64.in_range maxInterval ->
  Int64.in_range (calcNextInterval unrepresentable current maxInterval c).
Proof.
  intros Hun Hcur Hmax. unfold calcNextInterval, nextInterval.
  destruct (unlimitedMaxInterval =? maxInterval);
    [now apply to_int64_in_range|].
  destruct (current =? maxInterval); [exact Hcur|].
  match goal with |- context [?a >? ?b] => destruct (a >? b) end;
    [exact Hmax | now apply to_int64_in_range].
Qed.

Lemma interval_at_in_range (k : nat) :
  (forall y, Int64.in_range (unrepresentable y)) ->
  Int64.in_range (getInitialInterval p) ->
  Int64.in_range (getMaxInterval p) ->
  Int64.in_range (interval_at unrepresentable p k).
Proof.
  intros Hun Hinit Hmax. induction k as [|k IH].
  - exact Hinit.
  - change (interval_at unrepresentable p (S k))
      with (calcNextInterval unrepresentable
              (interval_at unrepresentable p k) (getMaxInterval p)
              (getBackOffCoefficient p)).
    now apply calcNextInterval_in_range.
Qed.

End Schedule.


(** X5. With a limited [maxInterval], the first sleep of a run is the
    policy's initial interval as it is, also when it exceeds [maxInterval],
    and every later sleep is at most [maxInterval]. *)
Theorem Supply_first_sleep_unclamped
  {W E T P : Type} `{policy P}
  (unrepresentable : float64 -> Z) (ctx : W -> bool)
  (slp : Duration -> W -> W)
  (supply : W -> (T * option (error E T)) * W) (zeroT : T) (p : P)
  (k : nat) (w : W) :
  getMaxInterval p <> unlimitedMaxInterval ->
  sleeps (status_trace
            (Supply_status unrepresentable ctx slp supply zeroT p k w)) = []
  \/ exists later,
       sleeps (status_trace
                 (Supply_status unrepresentable ctx slp supply zeroT p k w))
       = getInitialInterval p :: later
       /\ Forall (fun d => d <= getMaxInterval p) later.
Proof.
  intros Hlim. rewrite sleeps_follow_schedule.
  destruct (sleep_count _) as [|m]; [now left|].
  right. unfold schedule. simpl. eexists. split; [reflexivity|].
  apply Forall_map, Forall_forall. intros j Hj. apply in_seq in Hj.
  destruct j as [|j]; [lia|]. now apply interval_at_le_max.
Qed.

Lemma Supply_first_sleep_unclamped_witness :
  let p := BackOffPolicyBuilder.Build
             (BackOffPolicyBuilder.WithMaxInterval
                BackOffPolicyBuilder.zero_value (100 * Millisecond)) in
  sleeps (status_trace
            (Supply_status Float64.amd64 TestWorld.background
               TestWorld.fake_sleep TestWorld.always_failing false p 4
               TestWorld.start))
  = [Second; 100 * Millisecond; 100 * Millisecond]
  /\ (sleeps (status_trace
                (Supply_status Float64.amd64 TestWorld.background
                   TestWorld.fake_sleep TestWorld.always_failing false p 4
                   TestWorld.start)) = []
      \/ exists later,
           sleeps (status_trace
                     (Supply_status Float64.amd64 TestWorld.background
                        TestWorld.fake_sleep TestWorld.always_failing false
                        p 4 TestWorld.start))
           = getInitialInterval p :: later
           /\ Forall (fun d => d <= getMaxInterval p) later).
Proof.
  intros p. split; [vm_compute; reflexivity|].
  apply (Supply_first_sleep_unclamped Float64.amd64 TestWorld.background
           TestWorld.fake_sleep TestWorld.always_failing false p 4
           TestWorld.start).
  vm_compute. discriminate.
Defined.

Lemma fixed_delay_interval_at (unrepresentable : float64 -> Z)
      (p : FixedDelayPolicy.t) (k : nat) :
  interval_at unrepresentable p k = FixedDelayPolicy.Interval p.
Proof.
  induction k as [|k IH]; [reflexivity|].
  change (interval_at unrepresentable p (S k))
    with (calcNextInterval unrepresentable (interval_at unrepresentable p k)
            (FixedDelayPolicy.interval p) fixedDelayBackOffCoefficient).
  rewrite IH. unfold FixedDelayPolicy.Interval, calcNextInterval.
  destruct (unlimitedMaxInterval =? FixedDelayPolicy.interval p) eqn:Hu.
  - apply Z.eqb_eq in Hu. rewrite <- Hu. vm_compute. reflexivity.
  - now rewrite Z.eqb_refl.
Qed.

(** X6. Under a fixed-delay policy every sleep of a run lasts exactly the
    policy's interval: for every [FixedDelayPolicy] value (built or not),
    context, sleeper and operation, and after any number of passes. *)
Theorem Supply_fixed_delay_constant
  {W E T : Type}
  (unrepresentable : float64 -> Z) (ctx : W -> bool)
  (slp : Duration -> W -> W)
  (supply : W -> (T * option (error E T)) * W) (zeroT : T)
  (p : FixedDelayPolicy.t) (k : nat) (w : W) :
  Forall (fun d => d = FixedDelayPolicy.Interval p)
    (sleeps (status_trace
               (Supply_status unrepresentable ctx slp supply zeroT p k w))).
Proof.
  rewrite sleeps_follow_schedule. unfold schedule.
  apply Forall_map, Forall_forall. intros j _.
  apply fixed_delay_interval_at.
Qed.

(** X7. With a limited [maxInterval], once a sleep of a run lasts exactly
    [maxInterval], every later sleep of the run does: the interval stays
    pinned at the maximum. *)
Theorem Supply_sleeps_pinned_at_max
  {W E T P : Type} `{policy P}
  (unrepresentable : float64 -> Z) (ctx : W -> bool)
  (slp : Duration -> W -> W)
  (supply : W -> (T * option (error E T)) * W) (zeroT : T) (p : P)
  (k : nat) (w : W) (j1 j2 : nat) (d : Duration) :
  getMaxInterval p <> unlimitedMaxInterval ->
  nth_error
    (sleeps (status_trace
               (Supply_status unrepresentable ctx slp supply zeroT p k w)))
    j1 = Some (getMaxInterval p) ->
  (j1 <= j2)%nat ->
  nth_error
    (sleeps (status_trace
               (Supply_status unrepresentable ctx slp supply zeroT p k w)))
    j2 = Some d ->
  d = getMaxInterval p.
Proof.
  intros Hlim H1 Hle H2. rewrite sleeps_follow_schedule in H1, H2.
  assert (L1 : (j1 < sleep_count
                       (status_trace
                          (Supply_status unrepresentable ctx slp supply
                                         zeroT p k w)))%nat).
  { rewrite <- (schedule_length unrepresentable p).
    apply nth_error_Some. congruence. }
  assert (L2 : (j2 < sleep_count
                       (status_trace
                          (Supply_status unrepresentable ctx slp supply
                                         zeroT p k w)))%nat).
  { rewrite <- (schedule_length unrepresentable p).
    apply nth_error_Some. congruence. }
  rewrite schedule_nth in H1, H2 by assumption.
  injection H1 as H1'. injection H2 as H2'. rewrite <- H2'.
  now apply (interval_at_pinned unrepresentable p j1 j2).
Qed.

Lemma Supply_sleeps_pinned_at_max_witness :
  let p := BackOffPolicyBuilder.Build
             (BackOffPolicyBuilder.mk (300 * Millisecond) Second (-1)
                                      Float64.two) in
  sleeps (status_trace
            (Supply_status Float64.amd64 TestWorld.background
               TestWorld.fake_sleep TestWorld.always_failing false p 5
               TestWorld.start))
  = [300 * Millisecond; 600 * Millisecond; Second; Second; Second]
  /\ Second = getMaxInterval p.
Proof.
  intros p. split; [vm_compute; reflexivity|].
  apply (Supply_sleeps_pinned_at_max Float64.amd64 TestWorld.background
           TestWorld.fake_sleep TestWorld.always_failing false p 5
           TestWorld.start 2 4 Second).
  - vm_compute. discriminate.
  - vm_compute. reflexivity.
  - lia.
  - vm_compute. reflexivity.
Defined.

(** X8. When the policy's initial and maximum intervals are [int64] values
    and the platform converts every unrepresentable float to an [int64],
    every duration a run hands to the sleeper is an [int64] value: nothing
    the loop computes leaves the range of [time.Duration]. *)
Theorem Supply_sleeps_are_int64
  {W E T P : Type} `{policy P}
  (unrepresentable : float64 -> Z) (ctx : W -> bool)
  (slp : Duration -> W -> W)
  (supply : W -> (T * option (error E T)) * W) (zeroT : T) (p : P)
  (k : nat) (w : W) :
  (forall x, Int64.in_range (unrepresentable x)) ->
  Int64.in_range (getInitialInterval p) ->
  Int64.in_range (getMaxInterval p) ->
  Forall Int64.in_range
    (sleeps (status_trace
               (Supply_status unrepresentable ctx slp supply zeroT p k w))).
Proof.
  intros Hun Hinit Hmax. rewrite sleeps_follow_schedule. unfold schedule.
  apply Forall_map, Forall_forall. intros j _.
  now apply interval_at_in_range.
Qed.

Lemma Supply_sleeps_are_int64_witness :
  Forall Int64.in_range
    (sleeps (status_trace
               (Supply_status Float64.amd64 TestWorld.background
                  TestWorld.fake_sleep TestWorld.always_failing false
                  (BackOffPolicyBuilder.Build
                     (BackOffPolicyBuilder.WithBackOffCoefficient
                        (BackOffPolicyBuilder.WithMaxIntervalUnlimited
                           BackOffPolicyBuilder.zero_value)
                        Float64.nan))
                  4 TestWorld.start))).
Proof.
  apply (Supply_sleeps_are_int64 Float64.amd64 TestWorld.background
           TestWorld.fake_sleep TestWorld.always_failing false
           (BackOffPolicyBuilder.Build
              (BackOffPolicyBuilder.WithBackOffCoefficient
                 (BackOffPolicyBuilder.WithMaxIntervalUnlimited
                    BackOffPolicyBuilder.zero_value)
                 Float64.nan))
           4 TestWorld.start).
  - intros x. vm_compute. split; discriminate.
  - vm_compute. split; discriminate.
  - vm_compute. split; discriminate.
Defined.

(** ** Runs against an operation that counts its calls *)

Section FailingPrefix.

Context {W E T P : Type} `{policy P}.

Variable unrepresentable : float64 -> Z.
Variable ctx : W -> bool.
Variable slp : Duration -> W -> W.
Variable supply : W -> (T * option (error E T)) * W.
Variable zeroT : T.
Variable p : P.

(** The number of calls the operation has seen. *)
Variable calls : W -> nat.

Hypothesis sleep_keeps_calls : forall d w, calls (slp d w) = calls w.
Hypothesis supply_counts : forall w, calls (snd (supply w)) = S (calls w).

(** While the operation fails and the context is quiet, and the bound is not
    reached, the loop plays one failed round per call. *)
Lemma failing_prefix (w0 : W) (m : nat) :
  calls w0 = O ->
  (forall w, (calls w < m)%nat ->
             ctx w = false /\ snd (fst (supply w)) <> None) ->
  getMaxAttempts p <= 0
  \/ Z.of_nat m <= getMaxAttempts p <= Int64.max_int64 ->
  exists st,
    Supply_status unrepresentable ctx slp supply zeroT p m w0 = Running st
    /\ calls (world st) = m
    /\ i st = (if getMaxAttempts p >? 0 then Z.of_nat m else 0)
    /\ failed_rounds m (trace st)
    /\ (res st, err st) = last_observed (trace st) (zeroT, None)
    /\ ((0 < m)%nat ->
        exists w', (calls w' < m)%nat /\ err st = snd (fst (supply w'))).
Proof.
  intros H0. unfold Supply_status. induction m as [|m IH]; intros Hpre Hmax.
  - exists (initial zeroT p w0). simpl. repeat split; try assumption.
    + now destruct (getMaxAttempts p >? 0).
    + constructor.
    + lia.
  - destruct IH as (st & Hrun & Hcalls & Hi & Htr & Hlast & _).
    { intros w Hw. apply Hpre. lia. }
    { destruct Hmax as [Hmax | Hmax]; [now left | right; lia]. }
    rewrite loop_iter_snoc, Hrun. simpl.
    destruct (Hpre (world st)) as [Hq Hf]; [lia|].
    destruct (supply (world st)) as [[v oe] w1] eqn:Hs.
    pose proof (supply_counts (world st)) as Hcnt. rewrite Hs in Hcnt.
    simpl in Hf, Hcnt. destruct oe as [e|]; [|congruence].
    assert (Hc : loop_cond p st = true).
    { unfold loop_cond. rewrite Hi. apply orb_true_iff.
      destruct (getMaxAttempts p >? 0) eqn:Hpos.
      - right. apply Z.ltb_lt. destruct Hmax as [Hmax | Hmax]; [|lia].
        apply Z.gtb_lt in Hpos. lia.
      - left. reflexivity. }
    rewrite (loop_step_fail _ _ _ _ _ st v e w1 Hc Hq Hs).
    eexists. split; [reflexivity|]. simpl. repeat split.
    + now rewrite sleep_keeps_calls, Hcnt, Hcalls.
    + rewrite Hi. destruct (getMaxAttempts p >? 0) eqn:Hpos; [|reflexivity].
      destruct Hmax as [Hmax | Hmax];
        [apply Z.gtb_lt in Hpos; lia|].
      unfold Int64.incr. rewrite wrap_in_range; [lia|].
      unfold Int64.in_range, Int64.min_int64, Int64.max_int64 in *.
      change (2 ^ 63) with 9223372036854775808 in *. lia.
    + now constructor.
    + now rewrite last_observed_app.
    + intros _. exists (world st). split; [lia|]. now rewrite Hs.
Qed.

End FailingPrefix.

(** X9. Reaching the attempt bound takes precedence over cancellation: with
    a positive bound [n] and an operation that fails with [e0] on each of its
    first [n] calls, if the context is quiet at the polls before these calls,
    [Supply] returns [e0] itself after [n] invocations, also when the context
    is done by then (during the last call or the last sleep); the signal is
    not looked at again once the bound is reached. *)
Theorem Supply_exhaustion_before_cancellation
  {W E T P : Type} `{policy P}
  (unrepresentable : float64 -> Z) (ctx : W -> bool)
  (slp : Duration -> W -> W)
  (supply : W -> (T * option (error E T)) * W) (zeroT : T) (p : P)
  (calls : W -> nat) (n : nat) (e0 : error E T) (w0 : W) (fuel : nat) :
  (forall d w, calls (slp d w) = calls w) ->
  (forall w, calls (snd (supply w)) = S (calls w)) ->
  (1 <= n)%nat ->
  getMaxAttempts p = Z.of_nat n ->
  Z.of_nat n <= Int64.max_int64 ->
  (forall w, (calls w < n)%nat -> ctx w = false) ->
  (forall w, (calls w < n)%nat -> snd (fst (supply w)) = Some e0) ->
  calls w0 = O ->
  (n < fuel)%nat ->
  exists o,
    Supply unrepresentable ctx slp supply zeroT p fuel w0 = Some o
    /\ snd (ret o) = Some e0
    /\ invocations (trace_of o) = n
    /\ calls (world_of o) = n.
Proof.
  intros Hslp Hcnt Hn Hmax Hrange Hq Hfail H0 Hfuel.
  destruct (failing_prefix unrepresentable ctx slp supply zeroT p calls
              Hslp Hcnt w0 n H0) as (st & Hrun & Hcalls & Hi & Htr & _ & He).
  { intros w Hw. split; [now apply Hq|]. rewrite (Hfail w Hw). discriminate. }
  { right. lia. }
  destruct (He ltac:(lia)) as (w' & Hw' & Herr).
  rewrite (Hfail w' Hw') in Herr.
  assert (Hc : loop_cond p st = false).
  { unfold loop_cond. rewrite Hi, Hmax.
    replace (Z.of_nat n >? 0) with true by (symmetry; apply Z.gtb_lt; lia).
    apply orb_false_iff. split; [apply Z.eqb_neq | apply Z.ltb_ge]; lia. }
  assert (Hfin : loop_iter unrepresentable ctx slp supply p (S n)
                   (Running (initial zeroT p w0))
                 = Finished (mkOutcome (res st, err st) (world st) (trace st))).
  { unfold Supply_status in Hrun. rewrite loop_iter_snoc, Hrun. simpl.
    now apply loop_step_exit. }
  exists (mkOutcome (res st, err st) (world st) (trace st)).
  unfold Supply, Supply_status.
  assert (Hle : (S n <= fuel)%nat) by lia.
  rewrite (loop_iter_finished_mono _ _ _ _ _ _ _ _ _ Hle Hfin). simpl.
  repeat split; try assumption.
  now apply failed_rounds_invocations.
Qed.

Lemma Supply_exhaustion_before_cancellation_witness :
  exists o,
    Supply Float64.amd64 (done_after_calls 3) TestWorld.fake_sleep
      TestWorld.always_failing false
      (FixedDelayPolicyBuilder.Build
         (FixedDelayPolicyBuilder.mk (100 * Millisecond) 3))
      4 TestWorld.start = Some o
    /\ snd (ret o) = Some (ForeignError TestWorld.AnError)
    /\ invocations (trace_of o) = 3%nat
    /\ TestWorld.calls (world_of o) = 3%nat.
Proof.
  apply (Supply_exhaustion_before_cancellation Float64.amd64
           (done_after_calls 3) TestWorld.fake_sleep
           TestWorld.always_failing false
           (FixedDelayPolicyBuilder.Build
              (FixedDelayPolicyBuilder.mk (100 * Millisecond) 3))
           TestWorld.calls 3 (ForeignError TestWorld.AnError)
           TestWorld.start 4).
  - reflexivity.
  - reflexivity.
  - lia.
  - reflexivity.
  - vm_compute. discriminate.
  - intros w Hw. unfold done_after_calls. apply Nat.leb_gt. exact Hw.
  - reflexivity.
  - reflexivity.
  - lia.
Defined.



(** ** More about the builders *)

(** X11. Normalization is idempotent: a built policy read through its public
    accessors and fed back to a fresh builder builds the same policy again,
    for every builder input (sentinels, defaults and NaN included), for both
    kinds of policy. *)
Theorem Build_rebuild_identity
  (b : BackOffPolicyBuilder.t) (f : FixedDelayPolicyBuilder.t) :
  BackOff_rebuild (BackOffPolicyBuilder.Build b) = BackOffPolicyBuilder.Build b
  /\ FixedDelay_rebuild (FixedDelayPolicyBuilder.Build f)
     = FixedDelayPolicyBuilder.Build f.
Proof.
  split.
  - destruct b as [ii mi ma c].
    unfold BackOff_rebuild, BackOffPolicyBuilder.Build.
    cbv beta iota delta [BackOffPolicy.InitialInterval BackOffPolicy.MaxInterval
         BackOffPolicy.MaxAttempts BackOffPolicy.BackOffCoefficient
         BackOffPolicy.initialInterval BackOffPolicy.maxInterval
         BackOffPolicy.maxAttempts BackOffPolicy.backOffCoefficient
         BackOffPolicyBuilder.WithInitialInterval
         BackOffPolicyBuilder.WithMaxInterval
         BackOffPolicyBuilder.WithMaxAttempts
         BackOffPolicyBuilder.WithBackOffCoefficient
         BackOffPolicyBuilder.initialInterval BackOffPolicyBuilder.maxInterval
         BackOffPolicyBuilder.maxAttempts
         BackOffPolicyBuilder.backOffCoefficient
         BackOffPolicyBuilder.zero_value].
    unfold BackOffPolicyBuilder.resolveInitialInterval,
      BackOffPolicyBuilder.resolveMaxInterval,
      BackOffPolicyBuilder.resolveMaxAttempts,
      BackOffPolicyBuilder.resolveBackOffCoefficient.
    cbv beta iota delta [BackOffPolicyBuilder.initialInterval BackOffPolicyBuilder.maxInterval
         BackOffPolicyBuilder.maxAttempts
         BackOffPolicyBuilder.backOffCoefficient].
    f_equal.
    + destruct (ii <=? 0) eqn:Hi; cbv iota; [reflexivity | now rewrite Hi].
    + destruct (mi <? 0) eqn:Hlt; cbv iota; [reflexivity|].
      destruct (mi =? 0) eqn:Heq; cbv iota; [reflexivity | now rewrite Hlt, Heq].
    + destruct (ma <? 0) eqn:Hlt; cbv iota; [reflexivity|].
      destruct (ma =? 0) eqn:Heq; cbv iota; [reflexivity | now rewrite Hlt, Heq].
    + destruct (Float64.leb c Float64.zero) eqn:Hc; cbv iota;
        [reflexivity | now rewrite Hc].
  - destruct f as [iv ma].
    unfold FixedDelay_rebuild, FixedDelayPolicyBuilder.Build.
    cbv beta iota delta [FixedDelayPolicy.Interval FixedDelayPolicy.MaxAttempts
         FixedDelayPolicy.interval FixedDelayPolicy.maxAttempts
         FixedDelayPolicyBuilder.WithInterval
         FixedDelayPolicyBuilder.WithMaxAttempts
         FixedDelayPolicyBuilder.interval FixedDelayPolicyBuilder.maxAttempts
         FixedDelayPolicyBuilder.zero_value].
    unfold FixedDelayPolicyBuilder.resolveInterval,
      FixedDelayPolicyBuilder.resolveMaxAttempts.
    cbv beta iota delta [FixedDelayPolicyBuilder.interval FixedDelayPolicyBuilder.maxAttempts].
    f_equal.
    + destruct (iv <=? 0) eqn:Hi; cbv iota; [reflexivity | now rewrite Hi].
    + destruct (ma <? 0) eqn:Hlt; cbv iota; [reflexivity|].
      destruct (ma =? 0) eqn:Heq; cbv iota; [reflexivity | now rewrite Hlt, Heq].
Qed.

(** X12. What the predicates of a built policy say about the builder: a
    built backoff policy has an unlimited maximum interval exactly when the
    builder's [maxInterval] is negative, and a built policy of either kind
    attempts indefinitely exactly when the builder's [maxAttempts] is
    negative; so they hold after [WithMaxIntervalUnlimited] and
    [WithMaxAttemptsIndefinite], and fail for the defaults. *)
Theorem Build_predicates
  (b : BackOffPolicyBuilder.t) (f : FixedDelayPolicyBuilder.t) :
  BackOffPolicy.HasUnlimitedMaxInterval (BackOffPolicyBuilder.Build b)
  = (BackOffPolicyBuilder.maxInterval b <? 0)
  /\ BackOffPolicy.IsAttemptingIndefinitely (BackOffPolicyBuilder.Build b)
     = (BackOffPolicyBuilder.maxAttempts b <? 0)
  /\ FixedDelayPolicy.IsAttemptingIndefinitely
       (FixedDelayPolicyBuilder.Build f)
     = (FixedDelayPolicyBuilder.maxAttempts f <? 0)
  /\ BackOffPolicy.HasUnlimitedMaxInterval
       (BackOffPolicyBuilder.Build
          (BackOffPolicyBuilder.WithMaxIntervalUnlimited b)) = true
  /\ BackOffPolicy.IsAttemptingIndefinitely
       (BackOffPolicyBuilder.Build
          (BackOffPolicyBuilder.WithMaxAttemptsIndefinite b)) = true
  /\ FixedDelayPolicy.IsAttemptingIndefinitely
       (FixedDelayPolicyBuilder.Build
          (FixedDelayPolicyBuilder.WithMaxAttemptsIndefinite f)) = true.
Proof.
  destruct b as [ii mi ma c]. destruct f as [iv fa].
  unfold BackOffPolicy.HasUnlimitedMaxInterval,
    BackOffPolicy.IsAttemptingIndefinitely,
    FixedDelayPolicy.IsAttemptingIndefinitely,
    unlimitedMaxInterval, undefinedMaxAttempts.
  simpl.
  unfold BackOffPolicyBuilder.resolveMaxInterval,
    BackOffPolicyBuilder.resolveMaxAttempts,
    FixedDelayPolicyBuilder.resolveMaxAttempts,
    unlimitedMaxInterval, undefinedMaxAttempts.
  simpl.
  repeat split.
  - destruct (mi <? 0) eqn:Hlt; [reflexivity|].
    destruct (mi =? 0) eqn:Heq; [reflexivity|].
    apply Z.ltb_ge in Hlt. apply Z.eqb_neq. lia.
  - destruct (ma <? 0) eqn:Hlt; [reflexivity|].
    destruct (ma =? 0) eqn:Heq; [reflexivity|].
    apply Z.ltb_ge in Hlt. apply Z.eqb_neq. lia.
  - destruct (fa <? 0) eqn:Hlt; [reflexivity|].
    destruct (fa =? 0) eqn:Heq; [reflexivity|].
    apply Z.ltb_ge in Hlt. apply Z.eqb_neq. lia.
Qed.

(** X13. How two [With*] calls compose, for both builders: when they assign
    the same field the second call alone gives the same builder (the last
    value wins); otherwise the two calls commute. *)
Theorem With_calls_compose
  (m1 m2 : BuilderStore.method) (c c1 c2 : BuilderStore.cell) :
  builder_after m1 c = Some c1 ->
  builder_after m2 c1 = Some c2 ->
  if same_field m1 m2
  then builder_after m2 c = Some c2
  else exists c1', builder_after m2 c = Some c1'
                   /\ builder_after m1 c1' = Some c2.
Proof.
  intros H1 H2.
  destruct c as [b|b]; destruct m1; try discriminate H1;
    injection H1 as <-;
    destruct m2; try discriminate H2;
    injection H2 as <-; simpl;
    try reflexivity; eexists; split; reflexivity.
Qed.

Lemma With_calls_compose_witness :
  let c := BuilderStore.BackOffCell BackOffPolicyBuilder.zero_value in
  (exists c1', builder_after BuilderStore.WithMaxIntervalUnlimited c = Some c1'
               /\ builder_after (BuilderStore.WithMaxAttempts 7) c1'
                  = Some (BuilderStore.BackOffCell
                            (BackOffPolicyBuilder.mk 0 (-1) 7 (S754_zero false))))
  /\ builder_after (BuilderStore.WithMaxInterval Second) c
     = Some (BuilderStore.BackOffCell
               (BackOffPolicyBuilder.mk 0 Second 0 (S754_zero false))).
Proof.
  intros c. split.
  - apply (With_calls_compose (BuilderStore.WithMaxAttempts 7)
             BuilderStore.WithMaxIntervalUnlimited c
             (BuilderStore.BackOffCell
                (BackOffPolicyBuilder.mk 0 0 7 (S754_zero false)))
             (BuilderStore.BackOffCell
                (BackOffPolicyBuilder.mk 0 (-1) 7 (S754_zero false))));
      reflexivity.
  - apply (With_calls_compose BuilderStore.WithMaxIntervalUnlimited
             (BuilderStore.WithMaxInterval Second) c
             (BuilderStore.BackOffCell
                (BackOffPolicyBuilder.mk 0 (-1) 0 (S754_zero false)))
             (BuilderStore.BackOffCell
                (BackOffPolicyBuilder.mk 0 Second 0 (S754_zero false))));
      reflexivity.
Defined.

(** ** More about Run *)

Section RunFacts.

Context {W E P : Type} `{policy P}.

Variable any : Type.
Variable nil_any : any.
Variable unrepresentable : float64 -> Z.
Variable ctx : W -> bool.
Variable slp : Duration -> W -> W.
Variable run : W -> option (error E any) * W.
Variable p : P.

(** The value the loop holds under [Run] is only ever the placeholder. *)
Lemma Run_value_inv_step (st : @loop_state W E any) :
  res st = nil_any ->
  match loop_step unrepresentable ctx slp
                  (runFuncToSupplyFunc any nil_any run) p st with
  | Running st' => res st' = nil_any
  | Finished o => fst (ret o) = nil_any
  end.
Proof.
  intros Hres.
  destruct (loop_step_cases unrepresentable ctx slp
              (runFuncToSupplyFunc any nil_any run) p st)
    as [[_ Hs] | [(_ & _ & Hs) | [(v & w1 & _ & _ & Hv & Hs)
                                 | (v & e & w1 & _ & _ & Hv & Hs)]]];
    rewrite Hs; simpl; try exact Hres;
    unfold runFuncToSupplyFunc in Hv; destruct (run (world st));
    now inversion Hv.
Qed.

End RunFacts.

(** X14. Whenever [Run] returns, it returns nil, or a
    [DeadlineExceededError] whose [Result] is the nil placeholder (a poll
    found the context done), or, with a positive attempt bound and after at
    least one failed attempt, the error the operation returned last. *)
Theorem Run_returns_three_ways
  {W E P : Type} `{policy P} (any : Type) (nil_any : any)
  (unrepresentable : float64 -> Z) (ctx : W -> bool)
  (slp : Duration -> W -> W)
  (run : W -> option (error E any) * W) (p : P) (fuel : nat) (w : W)
  (o : outcome W E any (option (error E any))) :
  Run any nil_any unrepresentable ctx slp run p fuel w = Some o ->
  ret o = None
  \/ (ctx (world_of o) = true
      /\ exists e, ret o = Some (DeadlineExceededError nil_any e))
  \/ (0 < getMaxAttempts p
      /\ exists m e,
           failed_rounds (S m) (trace_of o)
           /\ ret o = Some e
           /\ snd (last_observed (trace_of o) (nil_any, None)) = Some e).
Proof.
  unfold Run, Supply. intros Hret.
  pose proof (Supply_status_inv unrepresentable ctx slp
                (runFuncToSupplyFunc any nil_any run) nil_any p _ _ w
                (rounds_inv_initial nil_any p w)
                (rounds_inv_step unrepresentable ctx slp
                   (runFuncToSupplyFunc any nil_any run) nil_any p)
                fuel) as Hways.
  pose proof (Supply_status_inv unrepresentable ctx slp
                (runFuncToSupplyFunc any nil_any run) nil_any p
                (fun st => res st = nil_any) (fun o => fst (ret o) = nil_any)
                w eq_refl
                (Run_value_inv_step any nil_any unrepresentable ctx slp run p)
                fuel) as Hval.
  destruct (Supply_status unrepresentable ctx slp
              (runFuncToSupplyFunc any nil_any run) nil_any p fuel w)
    as [st|o0]; [discriminate|].
  inversion Hret; subst o; clear Hret. unfold returnErrOnly. simpl.
  destruct Hways as [Hok | [Hcan | Hex]].
  - left. destruct Hok as (m & tr & v & _ & _ & Hr). now rewrite Hr.
  - right; left. destruct Hcan as (m & tr & _ & _ & Hd & Hr).
    split; [exact Hd|]. rewrite Hr in Hval. simpl in Hval.
    rewrite Hr. simpl. rewrite Hval. now eexists.
  - right; right. destruct Hex as (m & e & Htr & Hr & He & Hpos).
    split; [exact Hpos|]. exists m, e. repeat split; try assumption.
    now rewrite <- Hr.
Qed.

Lemma Run_returns_three_ways_witness :
  exists o,
    Run unit tt Float64.amd64 (done_after_calls 2) TestWorld.fake_sleep
        (run_failing_until 5)
        (FixedDelayPolicyBuilder.Build
           (FixedDelayPolicyBuilder.mk (100 * Millisecond) 4))
        3 TestWorld.start = Some o
    /\ ret o = Some (DeadlineExceededError tt
                       (Some (ForeignError TestWorld.AnError)))
    /\ (ret o = None
        \/ (done_after_calls 2 (world_of o) = true
            /\ exists e, ret o = Some (DeadlineExceededError tt e))
        \/ (0 < getMaxAttempts
                  (FixedDelayPolicyBuilder.Build
                     (FixedDelayPolicyBuilder.mk (100 * Millisecond) 4))
            /\ exists m e,
                 failed_rounds (S m) (trace_of o)
                 /\ ret o = Some e
                 /\ snd (last_observed (trace_of o) (tt, None)) = Some e)).
Proof.
  eexists. split; [vm_compute; reflexivity|].
  split; [reflexivity|].
  apply (Run_returns_three_ways unit tt Float64.amd64 (done_after_calls 2)
           TestWorld.fake_sleep (run_failing_until 5)
           (FixedDelayPolicyBuilder.Build
              (FixedDelayPolicyBuilder.mk (100 * Millisecond) 4))
           3 TestWorld.start).
  vm_compute. reflexivity.
Defined.

(** ** Indefinite attempts and fresh builders *)



(** X16. [Policy().BackOff()] and [Policy().FixedDelay()] hand out a
    reference to a fresh builder and leave every builder the caller already
    holds untouched; built at once through that reference, the fresh builder
    gives the default policy: 1s, 30s, 3 attempts and coefficient 2.0 for
    backoff, 1s and 3 attempts for fixed delay. *)
Theorem fresh_builder_builds_defaults
  (s : BuilderStore.store) (r : BuilderStore.ref) (c : BuilderStore.cell) :
  nth_error s r = Some c ->
  nth_error (snd (BuilderStore.BackOff s)) r = Some c
  /\ nth_error (snd (BuilderStore.FixedDelay s)) r = Some c
  /\ fst (BuilderStore.BackOff s) <> r
  /\ fst (BuilderStore.FixedDelay s) <> r
  /\ fst (BuilderStore.call (fst (BuilderStore.BackOff s)) BuilderStore.Build
            (snd (BuilderStore.BackOff s)))
     = Some (BuilderStore.BackOffPolicyV
               (BackOffPolicy.mk Second (30 * Second) 3 Float64.two))
  /\ fst (BuilderStore.call (fst (BuilderStore.FixedDelay s))
            BuilderStore.Build (snd (BuilderStore.FixedDelay s)))
     = Some (BuilderStore.FixedDelayPolicyV (FixedDelayPolicy.mk Second 3)).
Proof.
  intros Hc.
  assert (Hr : (r < length s)%nat) by (apply nth_error_Some; congruence).
  unfold BuilderStore.BackOff, BuilderStore.FixedDelay, BuilderStore.call.
  simpl. repeat split.
  - now rewrite nth_error_app1.
  - now rewrite nth_error_app1.
  - lia.
  - lia.
  - rewrite nth_error_app2, Nat.sub_diag by lia. reflexivity.
  - rewrite nth_error_app2, Nat.sub_diag by lia. reflexivity.
Qed.

Lemma fresh_builder_builds_defaults_witness :
  let s := [BuilderStore.FixedDelayCell
              (FixedDelayPolicyBuilder.mk (200 * Millisecond) 9)] in
  let c := BuilderStore.FixedDelayCell
             (FixedDelayPolicyBuilder.mk (200 * Millisecond) 9) in
  nth_error (snd (BuilderStore.BackOff s)) 0%nat = Some c
  /\ nth_error (snd (BuilderStore.FixedDelay s)) 0%nat = Some c
  /\ fst (BuilderStore.BackOff s) <> 0%nat
  /\ fst (BuilderStore.FixedDelay s) <> 0%nat
  /\ fst (BuilderStore.call (fst (BuilderStore.BackOff s)) BuilderStore.Build
            (snd (BuilderStore.BackOff s)))
     = Some (BuilderStore.BackOffPolicyV
               (BackOffPolicy.mk Second (30 * Second) 3 Float64.two))
  /\ fst (BuilderStore.call (fst (BuilderStore.FixedDelay s))
            BuilderStore.Build (snd (BuilderStore.FixedDelay s)))
     = Some (BuilderStore.FixedDelayPolicyV (FixedDelayPolicy.mk Second 3)).
Proof.
  intros s c.
  apply (fresh_builder_builds_defaults s 0%nat c).
  reflexivity.
Defined.
